(** * Altyapı sorgusu (app.py): providers, address validation, aggregation

    A shallow embedding of [app.py].  Python [str] values are sequences of
    Unicode code points, JSON values are a tagged union, [Optional[float]]
    fields hold IEEE doubles, and the effects of the program (the HTTP POST
    of the Wiradius provider, the Streamlit widgets of the submit handler,
    exceptions) are threaded explicitly through a state-and-error monad over
    a trace of events. *)

From Stdlib Require Import ZArith NArith List Bool String Ascii Lia.
From Stdlib Require Import PrimFloat FloatOps SpecFloat.
Import ListNotations.

Set Implicit Arguments.
Set Warnings "-register-all".
Local Open Scope list_scope.

(** ** Python strings *)

Module PyStr.

(** A Python [str] is a sequence of code points. *)
Definition codepoint := N.
Definition pystr := list codepoint.

(** Source literals are written as UTF-8 text; [py] decodes them into
    code points (1- to 4-byte sequences). *)
Fixpoint utf8_decode (bs : list N) : pystr :=
  match bs with
  | [] => []
  | b :: r =>
      if (b <? 128)%N then b :: utf8_decode r
      else if (b <? 224)%N then
        match r with
        | c1 :: r1 => ((b mod 32) * 64 + c1 mod 64)%N :: utf8_decode r1
        | _ => []
        end
      else if (b <? 240)%N then
        match r with
        | c1 :: c2 :: r2 =>
            ((b mod 16) * 4096 + (c1 mod 64) * 64 + c2 mod 64)%N :: utf8_decode r2
        | _ => []
        end
      else
        match r with
        | c1 :: c2 :: c3 :: r3 =>
            ((b mod 8) * 262144 + (c1 mod 64) * 4096 + (c2 mod 64) * 64 + c3 mod 64)%N
              :: utf8_decode r3
        | _ => []
        end
  end.

Definition py (s : string) : pystr :=
  utf8_decode (map N_of_ascii (list_ascii_of_string s)).

(** [==] on [str]. *)
Fixpoint eqb (s1 s2 : pystr) : bool :=
  match s1, s2 with
  | [], [] => true
  | c1 :: r1, c2 :: r2 => N.eqb c1 c2 && eqb r1 r2
  | _, _ => false
  end.

(** Truth value of a [str]: non-empty. *)
Definition truthy (s : pystr) : bool :=
  match s with [] => false | _ :: _ => true end.

(** [x in {...}] for a set of strings. *)
Definition mem (s : pystr) (set : list pystr) : bool := existsb (eqb s) set.

(** [str.startswith]. *)
Fixpoint startswith (s prefix : pystr) : bool :=
  match prefix, s with
  | [], _ => true
  | p :: pr, c :: r => N.eqb c p && startswith r pr
  | _ :: _, [] => false
  end.

(** Characters for which [str.isspace] holds; these are the ones
    [str.strip()] removes. *)
Definition isspace (c : codepoint) : bool :=
  ((9 <=? c) && (c <=? 13) || (28 <=? c) && (c <=? 32)
   || (c =? 133) || (c =? 160) || (c =? 5760)
   || (8192 <=? c) && (c <=? 8202)
   || (c =? 8232) || (c =? 8233) || (c =? 8239) || (c =? 8287)
   || (c =? 12288))%N.

Fixpoint lstrip (s : pystr) : pystr :=
  match s with
  | [] => []
  | c :: r => if isspace c then lstrip r else s
  end.

Definition rstrip (s : pystr) : pystr := rev (lstrip (rev s)).

(** [str.strip()]: whitespace removed at both ends. *)
Definition strip (s : pystr) : pystr := rstrip (lstrip s).

(** [str.lower()] on the ASCII range. *)
Definition is_ascii (c : codepoint) : bool := (c <? 128)%N.

Definition ascii_lower (c : codepoint) : codepoint :=
  if ((65 <=? c) && (c <=? 90))%N then (c + 32)%N else c.

Definition ascii_upper (c : codepoint) : codepoint :=
  if ((97 <=? c) && (c <=? 122))%N then (c - 32)%N else c.

(** A re-casing of a string: the characters selected by the mask are
    upper-cased, the others lower-cased (ASCII letters only). *)
Fixpoint recase (mask : list bool) (s : pystr) : pystr :=
  match s with
  | [] => []
  | c :: r =>
      match mask with
      | true :: m => ascii_upper c :: recase m r
      | false :: m => ascii_lower c :: recase m r
      | [] => ascii_lower c :: recase [] r
      end
  end.

End PyStr.

Import PyStr.
Arguments py s%_string : simpl never.

(** ** JSON values (the result of [resp.json()], and Python values passed
    to the pydantic models) *)

Inductive json : Type :=
| JNull
| JBool (b : bool)
| JInt (z : Z)
| JFloat (f : float)
| JStr (s : pystr)
| JArr (l : list json)
| JObj (m : list (pystr * json)).

(** A [dict] with string keys, in insertion order. *)
Definition dict := list (pystr * json).

Fixpoint lookup (k : pystr) (m : dict) : option json :=
  match m with
  | [] => None
  | (k', v) :: r => if PyStr.eqb k k' then Some v else lookup k r
  end.

(** Truth value of a Python object, as the [or] and [and] operators and
    [if] test it. *)
Definition truthy (v : json) : bool :=
  match v with
  | JNull => false
  | JBool b => b
  | JInt z => negb (z =? 0)%Z
  | JFloat f => negb (PrimFloat.eqb f 0%float)
  | JStr s => PyStr.truthy s
  | JArr l => match l with [] => false | _ => true end
  | JObj m => match m with [] => false | _ => true end
  end.

(** [Optional[str]] attribute tested for truth. *)
Definition truthy_opt (o : option pystr) : bool :=
  match o with None => false | Some s => PyStr.truthy s end.

(** [type(v).__name__]. *)
Definition type_name (v : json) : pystr :=
  match v with
  | JNull => py "NoneType"
  | JBool _ => py "bool"
  | JInt _ => py "int"
  | JFloat _ => py "float"
  | JStr _ => py "str"
  | JArr _ => py "list"
  | JObj _ => py "dict"
  end.

(** ** Exceptions *)

Inductive transport_failure := Timeout | ConnectionError.

Inductive exn : Type :=
| RequestException (kind : transport_failure) (msg : pystr)
| HTTPError (status : Z)
| JSONDecodeError (msg : pystr)
| AttributeError (type_name attr : pystr)
| ValueError (msg : pystr)
| OverflowError
| ValidationError (model : pystr) (fields : list pystr)
| NotImplementedError.

Definition result (A : Type) : Type := (exn + A)%type.

(** [float(z)] for a Python [int]: round to nearest even, [OverflowError]
    when out of range. *)
Definition Z2float (z : Z) : float :=
  SF2Prim (binary_normalize prec emax z 0 false).

Definition float_of_int (z : Z) : result float :=
  let f := Z2float z in
  if PrimFloat.is_infinity f then inl OverflowError else inr f.

(** ** Data models *)

Record Address := {
  il : pystr;
  ilce : pystr;
  mahalle : option pystr;
  cadde_sokak : option pystr;
  bina_no : option pystr;
  daire : option pystr;
  tt_adres_kodu : option pystr
}.

Record InfraResult := {
  provider : pystr;
  technology : pystr;
  max_down_mbps : option float;
  max_up_mbps : option float;
  port_available : option bool;
  raw : dict
}.

(** ** The outside world: HTTP and the screen *)

Record request := {
  url : pystr;
  json_payload : dict;
  timeout : Z
}.

(** Outcome of decoding the body of a response as JSON. *)
Inductive body_t :=
| Parsed (data : json)
| Unparsable (msg : pystr).

Record response := {
  status_code : Z;
  body : body_t
}.

(** What a POST comes back with: no response at all, or a response. *)
Inductive http_reply :=
| NoResponse (kind : transport_failure) (msg : pystr)
| Responded (resp : response).

(** Observable effects, oldest first. *)
Inductive event :=
| Posted (r : request)
| Subheader (text : pystr)
| Spinner (label : pystr)
| Slept (ms : Z)
| Container (r : InfraResult)
| Markdown (text : pystr)
| LinkButton (label : pystr) (target : json)
| ErrorBox (msg : pystr).

Definition trace := list event.

(** What the program takes from the interpreter, from pydantic and from
    the network.  None of it is defined in app.py:
    - [unicode_lower] is [str.lower] on strings that are not pure ASCII
      (driven by the Unicode character database);
    - [py_repr] is [str(v)] for a value that is not a [str];
    - [coerce_float] and [coerce_bool] are pydantic's coercions of a value
      that is neither [None] nor already of the field's numeric type;
    - [str_exn] is [str(e)];
    - [upstream] answers a POST, possibly depending on everything that
      happened before. *)
Class Runtime := {
  unicode_lower : pystr -> pystr;
  py_repr : json -> pystr;
  coerce_float : json -> option float;
  coerce_bool : json -> option bool;
  str_exn : exn -> pystr;
  upstream : trace -> request -> http_reply
}.

(** ** State-and-error monad over the trace *)

Definition M (A : Type) : Type := trace -> result A * trace.

Definition ret {A} (a : A) : M A := fun t => (inr a, t).

Definition raise {A} (e : exn) : M A := fun t => (inl e, t).

Definition bind {A B} (c : M A) (k : A -> M B) : M B :=
  fun t =>
    match c t with
    | (inr a, t') => k a t'
    | (inl e, t') => (inl e, t')
    end.

Definition lift {A} (r : result A) : M A := fun t => (r, t).

Definition emit (e : event) : M unit := fun t => (inr tt, t ++ [e]).

(** [try: body except Exception as e: handler(e)]. *)
Definition try_except {A} (body : M A) (handler : exn -> M A) : M A :=
  fun t =>
    match body t with
    | (inr a, t') => (inr a, t')
    | (inl e, t') => handler e t'
    end.

Declare Scope py_scope.
Delimit Scope py_scope with py.
Notation "x <- c ;; k" := (bind c (fun x => k))
  (at level 61, c at next level, right associativity) : py_scope.
Notation "c ;;; k" := (bind c (fun _ => k))
  (at level 61, right associativity) : py_scope.
Local Open Scope py_scope.

Section Program.

Context {rt : Runtime}.

(** [str.lower()]: ASCII letters are mapped directly, anything else goes
    through the Unicode tables. *)
Definition lower (s : pystr) : pystr :=
  if forallb is_ascii s then map ascii_lower s else unicode_lower s.

(** [str(v)]. *)
Definition py_str (v : json) : pystr :=
  match v with
  | JStr s => s
  | _ => py_repr v
  end.

(** *** Address *)

(** The validator of [il] and [ilce]. *)
Definition non_empty (v : pystr) : result pystr :=
  let v := strip (if PyStr.truthy v then v else py "") in
  if negb (PyStr.truthy v) then inl (ValueError (py "Bu alan zorunludur"))
  else inr v.

Definition failed {A} (field : pystr) (r : result A) : list pystr :=
  match r with
  | inl _ => [field]
  | inr _ => []
  end.

(** [Address(il=..., ilce=..., ...)]: pydantic runs the validator on both
    fields and raises one [ValidationError] naming the fields it refused. *)
Definition Address_new (il_in ilce_in : pystr)
    (mahalle_in cadde_in bina_in daire_in tt_in : option pystr) : result Address :=
  match non_empty il_in, non_empty ilce_in with
  | inr i, inr c =>
      inr {| il := i; ilce := c; mahalle := mahalle_in; cadde_sokak := cadde_in;
             bina_no := bina_in; daire := daire_in; tt_adres_kodu := tt_in |}
  | ri, rc =>
      inl (ValidationError (py "Address") (failed (py "il") ri ++ failed (py "ilce") rc))
  end.

(** *** InfraResult *)

(** An [Optional[float]] field. *)
Definition float_field (v : json) : result (option float) :=
  match v with
  | JNull => inr None
  | JFloat f => inr (Some f)
  | JInt z =>
      match float_of_int z with
      | inr f => inr (Some f)
      | inl e => inl e
      end
  | _ =>
      match coerce_float v with
      | Some f => inr (Some f)
      | None => inl (ValueError (py "value is not a valid float"))
      end
  end.

(** An [Optional[bool]] field. *)
Definition bool_field (v : json) : result (option bool) :=
  match v with
  | JNull => inr None
  | JBool b => inr (Some b)
  | _ =>
      match coerce_bool v with
      | Some b => inr (Some b)
      | None => inl (ValueError (py "value could not be parsed to a boolean"))
      end
  end.

(** A [Dict[str, Any]] field: JSON objects have string keys only. *)
Definition dict_field (v : json) : result dict :=
  match v with
  | JObj m => inr m
  | _ => inl (ValueError (py "value is not a valid dict"))
  end.

Definition is_overflow {A} (r : result A) : bool :=
  match r with
  | inl OverflowError => true
  | _ => false
  end.

(** [InfraResult(provider=..., technology=..., max_down_mbps=...,
    max_up_mbps=..., port_available=..., raw=...)].  Fields are checked in
    declaration order; refused fields are collected into one
    [ValidationError], an [OverflowError] escapes as it is. *)
Definition InfraResult_new (provider_in technology_in : pystr)
    (max_down_in max_up_in port_in raw_in : json) : result InfraResult :=
  let rd := float_field max_down_in in
  if is_overflow rd then inl OverflowError else
  let ru := float_field max_up_in in
  if is_overflow ru then inl OverflowError else
  let rp := bool_field port_in in
  let rr := dict_field raw_in in
  match rd, ru, rp, rr with
  | inr d, inr u, inr p, inr m =>
      inr {| provider := provider_in; technology := technology_in;
             max_down_mbps := d; max_up_mbps := u; port_available := p;
             raw := m |}
  | _, _, _, _ =>
      inl (ValidationError (py "InfraResult")
             (failed (py "max_down_mbps") rd ++ failed (py "max_up_mbps") ru
                ++ failed (py "port_available") rp ++ failed (py "raw") rr))
  end.

(** *** Providers *)

Inductive Provider :=
| MockProvider
| WiradiusTTProvider (api_code uniq_code : pystr)
| LinkOutProvider.

Definition name (p : Provider) : pystr :=
  match p with
  | MockProvider => py "Demo (Mock)"
  | WiradiusTTProvider _ _ => py "Wiradius – TT VAE (Opsiyonel)"
  | LinkOutProvider => py "Resmî Sayfalar – Yönlendirme"
  end.

Definition karadeniz : list pystr :=
  [py "rize"; py "artvin"; py "trabzon"; py "giresun"; py "ordu"; py "samsun";
   py "bartin"; py "kastamonu"; py "sinop"; py "zonguldak"].

Definition MockProvider_query (address : Address) : M (list InfraResult) :=
  let key := lower (il address) ++ py "-" ++ lower (ilce address) in
  let tech := if mem (lower (il address)) karadeniz then py "Fiber" else py "VDSL" in
  let down := if PyStr.eqb tech (py "Fiber") then 1000%Z else 100%Z in
  let up := if PyStr.eqb tech (py "Fiber") then 100%Z else 8%Z in
  r <- lift (InfraResult_new (name MockProvider) tech (JInt down) (JInt up)
               (JBool true) (JObj [(py "rule", JStr (py "demo"))])) ;;
  ret [r].

(** [requests.post(url, json=payload, timeout=...)]. *)
Definition requests_post (u : pystr) (payload : dict) (tmo : Z) : M response :=
  fun t =>
    let r := {| url := u; json_payload := payload; timeout := tmo |} in
    match upstream t r with
    | NoResponse k msg => (inl (RequestException k msg), t ++ [Posted r])
    | Responded resp => (inr resp, t ++ [Posted r])
    end.

(** [resp.raise_for_status()]. *)
Definition raise_for_status (resp : response) : M unit :=
  if ((400 <=? status_code resp) && (status_code resp <? 600))%Z
  then raise (HTTPError (status_code resp))
  else ret tt.

(** [resp.json()]. *)
Definition resp_json (resp : response) : M json :=
  match body resp with
  | Parsed data => ret data
  | Unparsable msg => raise (JSONDecodeError msg)
  end.

(** [data.get(k)]: only a [dict] has the method. *)
Definition get (data : json) (k : pystr) : M json :=
  match data with
  | JObj m =>
      ret (match lookup k m with
           | Some v => v
           | None => JNull
           end)
  | _ => raise (AttributeError (type_name data) (py "get"))
  end.

(** [a or b], the right operand evaluated only when needed. *)
Definition or_else (a : json) (b : M json) : M json :=
  if truthy a then ret a else b.

Definition tt_code_of (address : Address) : pystr :=
  match tt_adres_kodu address with
  | Some s => s
  | None => py ""
  end.

Definition WiradiusTTProvider_query (api_code uniq_code : pystr)
    (address : Address) : M (list InfraResult) :=
  let self_name := name (WiradiusTTProvider api_code uniq_code) in
  if negb (PyStr.truthy api_code && PyStr.truthy uniq_code
           && truthy_opt (tt_adres_kodu address))
  then ret []
  else
    let u := py "https://api.wiradius.com/internet_infrastructure/tt_vae_query/"
             ++ api_code in
    let payload := [(py "tt_code", JStr (tt_code_of address));
                    (py "uniq_code", JStr uniq_code)] in
    try_except
      (resp <- requests_post u payload 20 ;;
       raise_for_status resp ;;;
       data <- resp_json resp ;;
       t1 <- get data (py "technology") ;;
       tech <- or_else t1
                 (t2 <- get data (py "tech") ;; or_else t2 (ret (JStr (py "Belirsiz")))) ;;
       d1 <- get data (py "max_down") ;;
       max_down <- or_else d1 (get data (py "download")) ;;
       u1 <- get data (py "max_up") ;;
       max_up <- or_else u1 (get data (py "upload")) ;;
       port_avail <- get data (py "port_available") ;;
       r <- lift (InfraResult_new self_name (py_str tech) max_down max_up port_avail
                    data) ;;
       ret [r])
      (fun e =>
         r <- lift (InfraResult_new self_name (py "Hata") JNull JNull JNull
                      (JObj [(py "error", JStr (str_exn e))])) ;;
         ret [r]).

Definition LINKS : dict :=
  [(py "Türk Telekom Altyapı Sorgu",
    JStr (py "https://www.turktelekom.com.tr/altyapi-sorgulama"));
   (py "TT Kapsama Haritası",
    JStr (py "https://kapsamaharitasi.turktelekom.com.tr/"));
   (py "Turkcell Superonline",
    JStr (py "https://www.superonline.net/altyapi-sorgulama"));
   (py "Turkcell (Superbox/Altyapı)",
    JStr (py "https://www.turkcell.com.tr/tr/altyapi-sorgulama"));
   (py "Millenicom",
    JStr (py "https://www.milleni.com.tr/internet-altyapi-sorgulama"));
   (py "Netspeed",
    JStr (py "https://www.netspeed.com.tr/altyapi-sorgula"));
   (py "BTK – EHABS (e-Devlet)",
    JStr (py "https://www.turkiye.gov.tr/btk-elektronik-haberlesme-altyapi-bilgi-sistemi-ehabs-hizmetleri-4302"))].

Definition LinkOutProvider_query (address : Address) : M (list InfraResult) :=
  r <- lift (InfraResult_new (name LinkOutProvider) (py "Yönlendirme")
               JNull JNull JNull (JObj LINKS)) ;;
  ret [r].

(** [p.query(address)]: dispatch on the provider's class. *)
Definition query (p : Provider) (address : Address) : M (list InfraResult) :=
  match p with
  | MockProvider => MockProvider_query address
  | WiradiusTTProvider api_code uniq_code =>
      WiradiusTTProvider_query api_code uniq_code address
  | LinkOutProvider => LinkOutProvider_query address
  end.

(** *** The submit handler *)

(** The aggregation loop: [for p in active_providers: ...
    results.extend(p.query(address))], under a spinner and after the
    cosmetic delay. *)
Fixpoint query_loop (ps : list Provider) (address : Address)
    (results : list InfraResult) : M (list InfraResult) :=
  match ps with
  | [] => ret results
  | p :: rest =>
      emit (Spinner (name p ++ py " sorgulanıyor...")) ;;;
      emit (Slept 200) ;;;
      res <- query p address ;;
      query_loop rest address (results ++ res)
  end.

Fixpoint link_buttons (m : dict) : M unit :=
  match m with
  | [] => ret tt
  | (label, target) :: r => emit (LinkButton label target) ;;; link_buttons r
  end.

(** One result on the screen: the bordered container with provider,
    technology, the three metrics and the raw details, and the quick links
    of the directory provider. *)
Definition render (r : InfraResult) : M unit :=
  emit (Container r) ;;;
  if startswith (provider r) (py "Resmî") && truthy (JObj (raw r))
  then emit (Markdown (py "**Hızlı Linkler**")) ;;; link_buttons (raw r)
  else ret tt.

Fixpoint render_all (rs : list InfraResult) : M unit :=
  match rs with
  | [] => ret tt
  | r :: rest => render r ;;; render_all rest
  end.

(** The text inputs of the form. *)
Record Form := {
  il_input : pystr;
  ilce_input : pystr;
  mahalle_input : pystr;
  cadde_input : pystr;
  bina_no_input : pystr;
  daire_input : pystr;
  tt_kod_input : pystr;
  wir_api_input : pystr;
  wir_uniq_input : pystr
}.

(** The providers of one query: the mock, the Wiradius provider when
    credentials are available (those of the form first, else those of the
    environment), the link directory. *)
Definition active_providers (WIR_API WIR_UNIQ : pystr) (f : Form) : list Provider :=
  [MockProvider]
    ++ (if PyStr.truthy (wir_api_input f) && PyStr.truthy (wir_uniq_input f)
        then [WiradiusTTProvider (wir_api_input f) (wir_uniq_input f)]
        else if PyStr.truthy WIR_API && PyStr.truthy WIR_UNIQ
             then [WiradiusTTProvider WIR_API WIR_UNIQ]
             else [])
    ++ [LinkOutProvider].

(** [if submitted: try: ... except Exception as e: st.error(...)]. *)
Definition on_submit (WIR_API WIR_UNIQ : pystr) (f : Form) : M unit :=
  try_except
    (address <- lift (Address_new (il_input f) (ilce_input f)
                        (Some (mahalle_input f)) (Some (cadde_input f))
                        (Some (bina_no_input f)) (Some (daire_input f))
                        (Some (tt_kod_input f))) ;;
     emit (Subheader (py "Sonuçlar")) ;;;
     results <- query_loop (active_providers WIR_API WIR_UNIQ f) address [] ;;
     render_all results)
    (fun e => emit (ErrorBox (py "Form doğrulama hatası: " ++ str_exn e))).

End Program.

(** ** Vocabulary of the specification *)

(** Blank or whitespace-only. *)
Definition blank (s : pystr) : bool := forallb isspace s.

(** The technology names of the specification, as the program spells them. *)
Definition Fiber : pystr := py "Fiber".
Definition VDSL : pystr := py "VDSL".
Definition Unknown : pystr := py "Belirsiz".
Definition Redirect : pystr := py "Yönlendirme".
Definition Error : pystr := py "Hata".

(** The one result the mock provider is specified to give, from the
    lower-cased province alone. *)
Definition mock_result (lowered_province : pystr) : InfraResult :=
  let coastal := mem lowered_province karadeniz in
  {| provider := py "Demo (Mock)";
     technology := if coastal then Fiber else VDSL;
     max_down_mbps := Some (if coastal then 1000 else 100)%float;
     max_up_mbps := Some (if coastal then 100 else 8)%float;
     port_available := Some true;
     raw := [(py "rule", JStr (py "demo"))] |}.

(** The error-shaped result: technology [Error], the message under the
    key "error", every optional field unset. *)
Definition error_result (provider_name msg : pystr) : InfraResult :=
  {| provider := provider_name;
     technology := Error;
     max_down_mbps := None;
     max_up_mbps := None;
     port_available := None;
     raw := [(py "error", JStr msg)] |}.

Definition redirect_result : InfraResult :=
  {| provider := py "Resmî Sayfalar – Yönlendirme";
     technology := Redirect;
     max_down_mbps := None;
     max_up_mbps := None;
     port_available := None;
     raw := LINKS |}.

(** The request the Wiradius provider sends. *)
Definition wiradius_request (api_code uniq_code tt_code : pystr) : request :=
  {| url := py "https://api.wiradius.com/internet_infrastructure/tt_vae_query/" ++ api_code;
     json_payload := [(py "tt_code", JStr tt_code); (py "uniq_code", JStr uniq_code)];
     timeout := 20 |}.

(** The HTTP failure outcomes: no response (timeout, transport error), a
    4xx or 5xx status, a body that is not JSON; with the exception each one
    surfaces as. *)
Definition http_failure (reply : http_reply) : option exn :=
  match reply with
  | NoResponse kind msg => Some (RequestException kind msg)
  | Responded resp =>
      if ((400 <=? status_code resp) && (status_code resp <? 600))%Z
      then Some (HTTPError (status_code resp))
      else match body resp with
           | Unparsable msg => Some (JSONDecodeError msg)
           | Parsed _ => None
           end
  end.

(** [m.get(k)] on a dict. *)
Definition field (m : dict) (k : pystr) : json :=
  match lookup k m with
  | Some v => v
  | None => JNull
  end.

(** First non-null of two candidate fields, in the specification's words. *)
Definition first_non_null (m : dict) (k1 k2 : pystr) : json :=
  match field m k1 with
  | JNull => field m k2
  | v => v
  end.

(** First truthy of two candidate fields, the second one when the first is
    not truthy: what [m.get(k1) or m.get(k2)] evaluates to. *)
Definition first_truthy (m : dict) (k1 k2 : pystr) : json :=
  if truthy (field m k1) then field m k1 else field m k2.

(** The technology value of a response body. *)
Definition technology_of (m : dict) : json :=
  let v := first_truthy m (py "technology") (py "tech") in
  if truthy v then v else JStr Unknown.

(** What one query of the Wiradius provider comes to, read off the reply it
    gets: the result record, or the exception that the [except] clause turns
    into an error result. *)
Definition wiradius_outcome {rt : Runtime} (provider_name : pystr)
    (reply : http_reply) : result InfraResult :=
  match reply with
  | NoResponse kind msg => inl (RequestException kind msg)
  | Responded resp =>
      if ((400 <=? status_code resp) && (status_code resp <? 600))%Z
      then inl (HTTPError (status_code resp))
      else match body resp with
           | Unparsable msg => inl (JSONDecodeError msg)
           | Parsed (JObj m) =>
               InfraResult_new provider_name (py_str (technology_of m))
                 (first_truthy m (py "max_down") (py "download"))
                 (first_truthy m (py "max_up") (py "upload"))
                 (field m (py "port_available"))
                 (JObj m)
           | Parsed v => inl (AttributeError (type_name v) (py "get"))
           end
  end.

(** Non-negative when present. *)
Definition nonneg_opt (o : option float) : bool :=
  match o with
  | None => true
  | Some f => PrimFloat.leb 0%float f
  end.

Definition speeds_nonneg (r : InfraResult) : bool :=
  nonneg_opt (max_down_mbps r) && nonneg_opt (max_up_mbps r).

(** The trace when the loop hands over to provider [p]: spinner shown,
    delay elapsed. *)
Definition announced {rt : Runtime} (p : Provider) (t : trace) : trace :=
  (t ++ [Spinner (name p ++ py " sorgulanıyor...")]) ++ [Slept 200].

(** Each provider's own result sequence during one run of the aggregation
    loop, in provider order. *)
Fixpoint provider_outputs {rt : Runtime} (ps : list Provider) (address : Address)
    (t : trace) : list (list InfraResult) :=
  match ps with
  | [] => []
  | p :: rest =>
      match query p address (announced p t) with
      | (inr res, t') => res :: provider_outputs rest address t'
      | (inl _, _) => []
      end
  end.

(** The trace the aggregation loop leaves behind. *)
Fixpoint trace_after {rt : Runtime} (ps : list Provider) (address : Address)
    (t : trace) : trace :=
  match ps with
  | [] => t
  | p :: rest => trace_after rest address (snd (query p address (announced p t)))
  end.

Definition set_il (a : Address) (v : pystr) : Address :=
  {| il := v; ilce := ilce a; mahalle := mahalle a; cadde_sokak := cadde_sokak a;
     bina_no := bina_no a; daire := daire a; tt_adres_kodu := tt_adres_kodu a |}.

(** ** A sample runtime, to run the model on concrete inputs *)

(** Lower-casing of the Turkish alphabet: the dotted capital I becomes "i"
    followed by a combining dot, as in Unicode's mapping. *)
Definition turkish_lower_char (c : codepoint) : pystr :=
  if (c =? 304)%N then [105; 775]%N
  else if (c =? 199)%N then [231]%N
  else if (c =? 286)%N then [287]%N
  else if (c =? 214)%N then [246]%N
  else if (c =? 350)%N then [351]%N
  else if (c =? 220)%N then [252]%N
  else [ascii_lower c].

Definition turkish_lower (s : pystr) : pystr := flat_map turkish_lower_char s.

(** Upper-casing as Unicode has it on ASCII letters and on the dotless
    "ı" of the Turkish alphabet, whose capital is the ASCII "I". *)
Definition sample_upper_char (c : codepoint) : codepoint :=
  if (c =? 305)%N then 73%N else ascii_upper c.

Definition sample_upper (s : pystr) : pystr := map sample_upper_char s.

Fixpoint digits_rev (fuel : nat) (n : N) : pystr :=
  match fuel with
  | O => []
  | S f => (48 + n mod 10)%N :: (if (n / 10 =? 0)%N then [] else digits_rev f (n / 10))
  end.

Definition repr_int (z : Z) : pystr :=
  let n := Z.abs_N z in
  let ds := rev (digits_rev (S (N.size_nat n)) n) in
  if (z <? 0)%Z then 45%N :: ds else ds.

(** [str] of the values the examples print; floats and containers are
    shown by their type only. *)
Definition sample_repr (v : json) : pystr :=
  match v with
  | JNull => py "None"
  | JBool true => py "True"
  | JBool false => py "False"
  | JInt z => repr_int z
  | JStr s => py "'" ++ s ++ py "'"
  | _ => py "<" ++ type_name v ++ py ">"
  end.

Definition sample_coerce_float (v : json) : option float :=
  match v with
  | JBool true => Some 1%float
  | JBool false => Some 0%float
  | _ => None
  end.

Definition sample_coerce_bool (v : json) : option bool :=
  match v with
  | JInt 0 => Some false
  | JInt 1 => Some true
  | _ => None
  end.

Definition sample_str_exn (e : exn) : pystr :=
  match e with
  | RequestException _ msg => msg
  | HTTPError status => repr_int status ++ py " Error"
  | JSONDecodeError msg => msg
  | AttributeError ty attr =>
      py "'" ++ ty ++ py "' object has no attribute '" ++ attr ++ py "'"
  | ValueError msg => msg
  | OverflowError => py "int too large to convert to float"
  | ValidationError model _ => py "validation error for " ++ model
  | NotImplementedError => py ""
  end.

(** The sample runtime over an upstream that answers every POST with the
    same reply. *)
Definition sample_runtime (reply : http_reply) : Runtime :=
  {| unicode_lower := turkish_lower;
     py_repr := sample_repr;
     coerce_float := sample_coerce_float;
     coerce_bool := sample_coerce_bool;
     str_exn := sample_str_exn;
     upstream := fun _ _ => reply |}.

Definition ok_json (v : json) : http_reply :=
  Responded {| status_code := 200; body := Parsed v |}.

(** A response body that spells its fields in both ways. *)
Definition sample_body : dict :=
  [(py "technology", JStr (py "")); (py "tech", JStr (py "Fiber"));
   (py "max_down", JNull); (py "download", JFloat 1000%float);
   (py "max_up", JInt 100); (py "port_available", JBool false)].

Definition sample_address (province : pystr) (tt_code : option pystr) : Address :=
  {| il := province; ilce := py "Merkez"; mahalle := Some (py "");
     cadde_sokak := Some (py ""); bina_no := Some (py ""); daire := Some (py "");
     tt_adres_kodu := tt_code |}.


(** Calling the same provider twice in a row. *)
Definition twice {rt : Runtime} (p : Provider) (address : Address)
    : M (list InfraResult * list InfraResult) :=
  r1 <- query p address ;;
  r2 <- query p address ;;
  ret (r1, r2).

(** Neither leading nor trailing whitespace. *)
Definition trimmed (s : pystr) : Prop := lstrip s = s /\ rstrip s = s.

(** ** The rest of the module *)

(** The module-level provider list, filled by three [append]s when the
    module is loaded. *)
Definition PROVIDERS (WIR_API WIR_UNIQ : pystr) : list Provider :=
  (([] ++ [MockProvider]) ++ [WiradiusTTProvider WIR_API WIR_UNIQ])
    ++ [LinkOutProvider].

(** ** Reading a trace *)

(** The requests sent, oldest first. *)
Definition posts (t : trace) : list request :=
  flat_map (fun e => match e with Posted r => [r] | _ => [] end) t.

(** The results shown, in the order of their containers. *)
Definition containers (t : trace) : list InfraResult :=
  flat_map (fun e => match e with Container r => [r] | _ => [] end) t.

(** The link buttons shown. *)
Definition link_buttons_shown (t : trace) : dict :=
  flat_map (fun e => match e with LinkButton l u => [(l, u)] | _ => [] end) t.

(** The error boxes shown. *)
Definition error_boxes (t : trace) : list pystr :=
  flat_map (fun e => match e with ErrorBox msg => [msg] | _ => [] end) t.

(** The events of the aggregation loop: spinner, delay, request. *)
Definition loop_event (e : event) : bool :=
  match e with
  | Posted _ | Spinner _ | Slept _ => true
  | _ => false
  end.

(** What showing one result adds to the screen. *)
Definition render_events (r : InfraResult) : list event :=
  Container r
    :: (if startswith (provider r) (py "Resmî") && truthy (JObj (raw r))
        then Markdown (py "**Hızlı Linkler**")
               :: map (fun kv => LinkButton (fst kv) (snd kv)) (raw r)
        else []).

(** The credentials a submit works with: those of the form when both are
    filled in, else those of the environment when both are set. *)
Definition resolved_credentials (WIR_API WIR_UNIQ : pystr) (f : Form)
    : option (pystr * pystr) :=
  if PyStr.truthy (wir_api_input f) && PyStr.truthy (wir_uniq_input f)
  then Some (wir_api_input f, wir_uniq_input f)
  else if PyStr.truthy WIR_API && PyStr.truthy WIR_UNIQ
       then Some (WIR_API, WIR_UNIQ)
       else None.

(** The request a submit sends, if any. *)
Definition submit_request (WIR_API WIR_UNIQ : pystr) (f : Form) : list request :=
  match resolved_credentials WIR_API WIR_UNIQ f with
  | Some (api, uniq) =>
      if PyStr.truthy (tt_kod_input f)
      then [wiradius_request api uniq (tt_kod_input f)]
      else []
  | None => []
  end.

(** The address a form with non-blank province and district is turned
    into. *)
Definition validated (f : Form) : Address :=
  {| il := strip (il_input f); ilce := strip (ilce_input f);
     mahalle := Some (mahalle_input f); cadde_sokak := Some (cadde_input f);
     bina_no := Some (bina_no_input f); daire := Some (daire_input f);
     tt_adres_kodu := Some (tt_kod_input f) |}.

(** A JSON value that is an object. *)
Definition is_object (v : json) : bool :=
  match v with
  | JObj _ => true
  | _ => false
  end.

Definition sample_form (province tt_code api uniq : pystr) : Form :=
  {| il_input := province; ilce_input := py "Merkez"; mahalle_input := py "";
     cadde_input := py ""; bina_no_input := py ""; daire_input := py "";
     tt_kod_input := tt_code; wir_api_input := api; wir_uniq_input := uniq |}.

(** * Properties *)

(** ** Strings *)

Lemma eqb_refl (s : pystr) : PyStr.eqb s s = true.
Proof.
  induction s as [|c r IH]; simpl; [reflexivity|].
  now rewrite N.eqb_refl, IH.
Qed.

Lemma eqb_eq (s1 s2 : pystr) : PyStr.eqb s1 s2 = true <-> s1 = s2.
Proof.
  split.
  - revert s2; induction s1 as [|c r IH]; intros [|c' r']; simpl; try discriminate; auto.
    intros H. apply andb_true_iff in H as [Hc Hr].
    apply N.eqb_eq in Hc. apply IH in Hr. congruence.
  - intros ->. apply eqb_refl.
Qed.

(** Membership in a set of strings. *)
Lemma mem_In (s : pystr) (set : list pystr) : mem s set = true <-> In s set.
Proof.
  unfold mem. rewrite existsb_exists. split.
  - intros (x & Hx & E). apply eqb_eq in E. now subst.
  - intros H. exists s. split; [exact H|apply eqb_refl].
Qed.

Lemma truthy_str_iff (s : pystr) : PyStr.truthy s = true <-> s <> [].
Proof. destruct s; simpl; split; congruence. Qed.


Lemma lstrip_blank (s : pystr) : lstrip s = [] <-> blank s = true.
Proof.
  unfold blank. induction s as [|c r IH]; simpl.
  - tauto.
  - destruct (isspace c); simpl; [exact IH|]. split; discriminate.
Qed.

Lemma blank_lstrip (s : pystr) : blank (lstrip s) = blank s.
Proof.
  unfold blank. induction s as [|c r IH]; simpl; [reflexivity|].
  destruct (isspace c) eqn:E; simpl; [exact IH|]. now rewrite E.
Qed.

Lemma blank_rev (s : pystr) : blank (rev s) = blank s.
Proof.
  unfold blank. induction s as [|c r IH]; simpl; [reflexivity|].
  rewrite forallb_app, IH. simpl. rewrite andb_true_r. apply andb_comm.
Qed.

Lemma rev_nil_iff {A} (l : list A) : rev l = [] <-> l = [].
Proof.
  split; intros H.
  - rewrite <- (rev_involutive l), H. reflexivity.
  - now subst.
Qed.

(** [strip] leaves nothing exactly on blank strings. *)
Lemma strip_blank (s : pystr) : strip s = [] <-> blank s = true.
Proof.
  unfold strip, rstrip.
  split; intros H.
  - apply rev_nil_iff, lstrip_blank in H.
    now rewrite blank_rev, blank_lstrip in H.
  - apply rev_nil_iff, lstrip_blank.
    now rewrite blank_rev, blank_lstrip.
Qed.

Lemma strip_not_blank (s : pystr) : blank s = false -> strip s <> [].
Proof.
  intros H E. apply strip_blank in E. congruence.
Qed.

Lemma lstrip_idem (s : pystr) : lstrip (lstrip s) = lstrip s.
Proof.
  induction s as [|c r IH]; simpl; [reflexivity|].
  destruct (isspace c) eqn:E; [exact IH|]. simpl. now rewrite E.
Qed.

Lemma rstrip_idem (s : pystr) : rstrip (rstrip s) = rstrip s.
Proof.
  unfold rstrip. now rewrite rev_involutive, lstrip_idem.
Qed.

Lemma lstrip_snoc (l : pystr) (c : codepoint) :
  isspace c = false -> lstrip (l ++ [c]) = lstrip l ++ [c].
Proof.
  intros Hc. induction l as [|x r IH]; simpl.
  - now rewrite Hc.
  - destruct (isspace x); [exact IH|reflexivity].
Qed.

Lemma rstrip_cons (c : codepoint) (r : pystr) :
  isspace c = false -> rstrip (c :: r) = c :: rstrip r.
Proof.
  intros Hc. unfold rstrip. simpl.
  rewrite lstrip_snoc by assumption.
  now rewrite rev_app_distr.
Qed.

Lemma lstrip_length (u : pystr) : List.length (lstrip u) <= List.length u.
Proof.
  induction u as [|x u IH]; simpl; [lia|].
  destruct (isspace x); simpl; lia.
Qed.

Lemma lstrip_rstrip (s : pystr) : lstrip s = s -> lstrip (rstrip s) = rstrip s.
Proof.
  destruct s as [|c r]; [reflexivity|].
  simpl. destruct (isspace c) eqn:E.
  - intros H. exfalso.
    pose proof (lstrip_length r) as G.
    rewrite H in G. simpl in G. lia.
  - intros _. rewrite rstrip_cons by assumption. simpl. now rewrite E.
Qed.

(** What [strip] returns is trimmed. *)
Lemma strip_trimmed (s : pystr) : trimmed (strip s).
Proof.
  unfold trimmed, strip. split.
  - apply lstrip_rstrip, lstrip_idem.
  - apply rstrip_idem.
Qed.

Lemma non_empty_ok (v : pystr) :
  blank v = false -> non_empty v = inr (strip v).
Proof.
  intros Hb. unfold non_empty.
  assert (E : (if PyStr.truthy v then v else py "") = v) by now destruct v.
  rewrite E.
  destruct (strip v) eqn:S; simpl; [|reflexivity].
  apply strip_blank in S. congruence.
Qed.

Lemma non_empty_blank (v : pystr) :
  blank v = true -> non_empty v = inl (ValueError (py "Bu alan zorunludur")).
Proof.
  intros Hb. unfold non_empty.
  assert (E : (if PyStr.truthy v then v else py "") = v) by now destruct v.
  rewrite E. apply strip_blank in Hb. now rewrite Hb.
Qed.

Lemma Address_new_ok (i c : pystr) (m s b d k : option pystr) :
  blank i = false -> blank c = false ->
  Address_new i c m s b d k =
    inr {| il := strip i; ilce := strip c; mahalle := m; cadde_sokak := s;
           bina_no := b; daire := d; tt_adres_kodu := k |}.
Proof.
  intros Hi Hc. unfold Address_new.
  now rewrite (non_empty_ok _ Hi), (non_empty_ok _ Hc).
Qed.

Lemma Address_new_blank (i c : pystr) (m s b d k : option pystr) :
  blank i || blank c = true ->
  exists fields,
    fields <> [] /\
    Address_new i c m s b d k = inl (ValidationError (py "Address") fields).
Proof.
  intros H. unfold Address_new.
  destruct (blank i) eqn:Hi.
  - rewrite (non_empty_blank _ Hi).
    eexists; split; [|reflexivity]. simpl. discriminate.
  - simpl in H. rewrite (non_empty_ok _ Hi), (non_empty_blank _ H).
    eexists; split; [|reflexivity]. simpl. discriminate.
Qed.

(** ** The monad *)




Lemma bind_ok {A B} (c : M A) (k : A -> M B) (t t' : trace) (a : A) :
  c t = (inr a, t') -> bind c k t = k a t'.
Proof. intros H. unfold bind. now rewrite H. Qed.

Lemma bind_assoc {A B C} (c : M A) (k : A -> M B) (h : B -> M C) (t : trace) :
  bind (bind c k) h t = bind c (fun a => bind (k a) h) t.
Proof.
  unfold bind. destruct (c t) as [[e|a] t']; reflexivity.
Qed.


(** ** MockProvider *)

Lemma mock_query_eq {rt : Runtime} (a : Address) (t : trace) :
  query MockProvider a t = (inr [mock_result (lower (il a))], t).
Proof.
  unfold query, MockProvider_query, mock_result.
  destruct (mem (lower (il a)) karadeniz); vm_compute; reflexivity.
Qed.

Lemma ascii_lower_ascii (c : codepoint) :
  is_ascii c = true -> is_ascii (ascii_lower c) = true.
Proof.
  unfold is_ascii, ascii_lower. intros H. apply N.ltb_lt in H.
  destruct ((65 <=? c) && (c <=? 90))%N eqn:E; apply N.ltb_lt; [|lia].
  apply andb_true_iff in E as [_ E]. apply N.leb_le in E. lia.
Qed.

Lemma ascii_upper_ascii (c : codepoint) :
  is_ascii c = true -> is_ascii (ascii_upper c) = true.
Proof.
  unfold is_ascii, ascii_upper. intros H. apply N.ltb_lt in H.
  destruct ((97 <=? c) && (c <=? 122))%N; apply N.ltb_lt; lia.
Qed.

Lemma ascii_lower_idem (c : codepoint) : ascii_lower (ascii_lower c) = ascii_lower c.
Proof.
  unfold ascii_lower.
  destruct ((65 <=? c) && (c <=? 90))%N eqn:E; [|now rewrite E].
  apply andb_true_iff in E as [E1 E2]. apply N.leb_le in E1, E2.
  destruct ((65 <=? c + 32) && (c + 32 <=? 90))%N eqn:F; [|reflexivity].
  apply andb_true_iff in F as [_ F]. apply N.leb_le in F. lia.
Qed.

Lemma ascii_lower_upper (c : codepoint) : ascii_lower (ascii_upper c) = ascii_lower c.
Proof.
  unfold ascii_lower, ascii_upper.
  destruct ((97 <=? c) && (c <=? 122))%N eqn:E.
  - apply andb_true_iff in E as [E1 E2]. apply N.leb_le in E1, E2.
    assert (H1 : ((65 <=? c - 32) && (c - 32 <=? 90))%N = true).
    { apply andb_true_iff; split; apply N.leb_le; lia. }
    assert (H2 : ((65 <=? c) && (c <=? 90))%N = false).
    { apply andb_false_iff; right. apply N.leb_gt. lia. }
    rewrite H1, H2. lia.
  - reflexivity.
Qed.

Lemma recase_ascii (mask : list bool) (s : pystr) :
  forallb is_ascii s = true -> forallb is_ascii (recase mask s) = true.
Proof.
  revert mask. induction s as [|c r IH]; intros mask H; [reflexivity|].
  simpl in H. apply andb_true_iff in H as [Hc Hr].
  destruct mask as [|[|] m]; simpl; apply andb_true_iff; split; auto using ascii_lower_ascii, ascii_upper_ascii.
Qed.

Lemma recase_lower (mask : list bool) (s : pystr) :
  map ascii_lower (recase mask s) = map ascii_lower s.
Proof.
  revert mask. induction s as [|c r IH]; intros mask; [reflexivity|].
  destruct mask as [|[|] m]; simpl; rewrite IH;
    now rewrite ?ascii_lower_upper, ?ascii_lower_idem.
Qed.

(** Re-casing an ASCII string does not change its lower-case form. *)
Lemma lower_recase {rt : Runtime} (mask : list bool) (s : pystr) :
  forallb is_ascii s = true -> lower (recase mask s) = lower s.
Proof.
  intros H. unfold lower.
  now rewrite (recase_ascii mask s H), H, recase_lower.
Qed.

(** ** LinkOutProvider *)

Lemma linkout_query_eq {rt : Runtime} (a : Address) (t : trace) :
  query LinkOutProvider a t = (inr [redirect_result], t).
Proof. reflexivity. Qed.

(** ** WiradiusTTProvider *)

Lemma wiradius_guard_closed {rt : Runtime} (api uniq : pystr) (a : Address) (t : trace) :
  PyStr.truthy api && PyStr.truthy uniq && truthy_opt (tt_adres_kodu a) = false ->
  query (WiradiusTTProvider api uniq) a t = (inr [], t).
Proof.
  intros H. unfold query, WiradiusTTProvider_query. now rewrite H.
Qed.

Lemma get_obj {rt : Runtime} {B} (m : dict) (k : pystr) (K : json -> M B) (t : trace) :
  bind (get (JObj m) k) K t = K (field m k) t.
Proof. reflexivity. Qed.

Lemma get_or_get {rt : Runtime} {B} (m : dict) (k1 k2 : pystr) (K : json -> M B)
    (t : trace) :
  bind (get (JObj m) k1) (fun v1 => bind (or_else v1 (get (JObj m) k2)) K) t
  = K (first_truthy m k1 k2) t.
Proof.
  rewrite get_obj. unfold or_else, first_truthy.
  destruct (truthy (field m k1)); [reflexivity|apply get_obj].
Qed.

Lemma get_technology {rt : Runtime} {B} (m : dict) (K : json -> M B) (t : trace) :
  bind (get (JObj m) (py "technology"))
    (fun v1 => bind (or_else v1
                       (bind (get (JObj m) (py "tech"))
                          (fun v2 => or_else v2 (ret (JStr (py "Belirsiz"))))))
                 K) t
  = K (technology_of m) t.
Proof.
  rewrite get_obj. unfold or_else, technology_of, first_truthy.
  destruct (truthy (field m (py "technology"))) eqn:E1.
  - rewrite E1. reflexivity.
  - unfold bind at 1. rewrite get_obj.
    destruct (truthy (field m (py "tech"))); reflexivity.
Qed.

Lemma wiradius_query_eq {rt : Runtime} (api uniq code : pystr) (a : Address) (t : trace) :
  api <> [] -> uniq <> [] -> tt_adres_kodu a = Some code -> code <> [] ->
  query (WiradiusTTProvider api uniq) a t =
    (inr [match wiradius_outcome (name (WiradiusTTProvider api uniq))
                  (upstream t (wiradius_request api uniq code)) with
          | inr r => r
          | inl e => error_result (name (WiradiusTTProvider api uniq)) (str_exn e)
          end],
     t ++ [Posted (wiradius_request api uniq code)]).
Proof.
  intros Ha Hu Hk Hc.
  unfold query, WiradiusTTProvider_query.
  apply truthy_str_iff in Ha, Hu, Hc.
  rewrite Ha, Hu. unfold truthy_opt, tt_code_of. rewrite Hk, Hc. simpl negb. cbv iota.
  change (negb (true && true && true)) with false. cbv iota.
  fold (wiradius_request api uniq code).
  unfold try_except, wiradius_outcome.
  unfold bind at 1. unfold requests_post.
  fold (wiradius_request api uniq code).
  destruct (upstream t (wiradius_request api uniq code)) as [kind msg|resp]; [reflexivity|].
  unfold bind at 1. unfold raise_for_status.
  destruct ((400 <=? status_code resp) && (status_code resp <? 600))%Z; [reflexivity|].
  unfold ret at 1. cbv iota beta.
  unfold bind at 1. unfold resp_json.
  destruct (body resp) as [data|msg]; [|reflexivity].
  unfold ret at 1. cbv iota beta.
  destruct data as [| b | z | f | s | l | m]; try reflexivity.
  rewrite get_technology, !get_or_get, get_obj.
  unfold bind, lift.
  destruct (InfraResult_new _ _ _ _ _ _); reflexivity.
Qed.

(** No provider raises, and each only adds to the trace. *)
Lemma query_total {rt : Runtime} (p : Provider) (a : Address) (t : trace) :
  exists rs ext, query p a t = (inr rs, t ++ ext).
Proof.
  destruct p as [|api uniq|].
  - exists [mock_result (lower (il a))], []. rewrite app_nil_r. apply mock_query_eq.
  - destruct (PyStr.truthy api && PyStr.truthy uniq && truthy_opt (tt_adres_kodu a)) eqn:G.
    + apply andb_true_iff in G as [G Hk]. apply andb_true_iff in G as [Ha Hu].
      apply truthy_str_iff in Ha, Hu.
      destruct (tt_adres_kodu a) as [code|] eqn:K; [|discriminate].
      simpl in Hk. apply truthy_str_iff in Hk.
      eexists _, _. apply (wiradius_query_eq a t Ha Hu K Hk).
    + exists [], []. rewrite app_nil_r. now apply wiradius_guard_closed.
  - exists [redirect_result], []. rewrite app_nil_r. apply linkout_query_eq.
Qed.

(** ** The aggregation loop *)

Lemma query_loop_cons {rt : Runtime} (p : Provider) (rest : list Provider)
    (a : Address) (acc : list InfraResult) (t : trace) :
  query_loop (p :: rest) a acc t =
    bind (query p a) (fun res => query_loop rest a (acc ++ res)) (announced p t).
Proof. reflexivity. Qed.

Lemma query_loop_eq {rt : Runtime} (ps : list Provider) (a : Address)
    (acc : list InfraResult) (t : trace) :
  query_loop ps a acc t =
    (inr (acc ++ List.concat (provider_outputs ps a t)), trace_after ps a t).
Proof.
  revert acc t. induction ps as [|p rest IH]; intros acc t.
  - simpl. now rewrite app_nil_r.
  - rewrite query_loop_cons. simpl.
    destruct (query_total p a (announced p t)) as (rs & ext & Q).
    rewrite (@bind_ok _ _ _ _ _ _ _ Q), Q, IH. simpl. now rewrite app_assoc.
Qed.

Lemma provider_outputs_length {rt : Runtime} (ps : list Provider) (a : Address)
    (t : trace) :
  List.length (provider_outputs ps a t) = List.length ps.
Proof.
  revert t. induction ps as [|p rest IH]; intros t; [reflexivity|].
  simpl. destruct (query_total p a (announced p t)) as (rs & ext & Q).
  rewrite Q. simpl. now rewrite IH.
Qed.

Lemma provider_outputs_own {rt : Runtime} (ps : list Provider) (a : Address)
    (t : trace) :
  Forall2 (fun p rs => exists t1 t2, query p a t1 = (inr rs, t2))
    ps (provider_outputs ps a t).
Proof.
  revert t. induction ps as [|p rest IH]; intros t; [constructor|].
  simpl. destruct (query_total p a (announced p t)) as (rs & ext & Q).
  rewrite Q. constructor; [|apply IH].
  now exists (announced p t), (announced p t ++ ext).
Qed.

Lemma provider_outputs_app {rt : Runtime} (ps1 ps2 : list Provider) (a : Address)
    (t : trace) :
  provider_outputs (ps1 ++ ps2) a t =
    provider_outputs ps1 a t ++ provider_outputs ps2 a (trace_after ps1 a t).
Proof.
  revert t. induction ps1 as [|p rest IH]; intros t; [reflexivity|].
  simpl. destruct (query_total p a (announced p t)) as (rs & ext & Q).
  rewrite Q. simpl. now rewrite IH.
Qed.


Lemma length_concat_sum {A} (l : list (list A)) :
  List.length (List.concat l) = list_sum (map (@List.length A) l).
Proof.
  induction l as [|x r IH]; simpl; [reflexivity|].
  now rewrite length_app, IH.
Qed.

(** ** Results of the Wiradius provider *)

Lemma http_failure_outcome {rt : Runtime} (n : pystr) (reply : http_reply) (e : exn) :
  http_failure reply = Some e -> wiradius_outcome n reply = inl e.
Proof.
  unfold http_failure, wiradius_outcome.
  destruct reply as [kind msg|resp]; [congruence|].
  destruct ((400 <=? status_code resp) && (status_code resp <? 600))%Z; [congruence|].
  destruct (body resp); [discriminate|congruence].
Qed.

Lemma InfraResult_new_inv {rt : Runtime} (n tech : pystr) (vd vu vp : json) (m : dict)
    (r : InfraResult) :
  InfraResult_new n tech vd vu vp (JObj m) = inr r ->
  provider r = n /\ technology r = tech
  /\ float_field vd = inr (max_down_mbps r)
  /\ float_field vu = inr (max_up_mbps r)
  /\ bool_field vp = inr (port_available r)
  /\ raw r = m.
Proof.
  unfold InfraResult_new.
  destruct (float_field vd) as [[]|d]; simpl; try discriminate;
    destruct (float_field vu) as [[]|u]; simpl; try discriminate;
    destruct (bool_field vp) as [e|p]; simpl; try discriminate;
    intros H; inversion H; subst; simpl; auto 10.
Qed.

Lemma InfraResult_new_ok {rt : Runtime} (n tech : pystr) (vd vu vp : json) (m : dict)
    (d u : option float) (p : option bool) :
  float_field vd = inr d -> float_field vu = inr u -> bool_field vp = inr p ->
  InfraResult_new n tech vd vu vp (JObj m) =
    inr {| provider := n; technology := tech; max_down_mbps := d;
           max_up_mbps := u; port_available := p; raw := m |}.
Proof.
  intros Hd Hu Hp. unfold InfraResult_new. now rewrite Hd, Hu, Hp.
Qed.

Lemma technology_of_truthy (m : dict) : truthy (technology_of m) = true.
Proof.
  unfold technology_of.
  destruct (truthy (first_truthy m (py "technology") (py "tech"))) eqn:E;
    [exact E|reflexivity].
Qed.

Lemma py_str_nonempty {rt : Runtime} (v : json) :
  (forall w, truthy w = true -> py_repr w <> []) ->
  truthy v = true -> py_str v <> [].
Proof.
  intros Hrepr Hv.
  destruct v; try (apply Hrepr; exact Hv).
  simpl in *. now apply truthy_str_iff.
Qed.

(** What a Wiradius result holds: a set technology, and as speeds and port
    availability the values found in its raw details. *)
Lemma wiradius_outcome_shape {rt : Runtime} (n : pystr) (reply : http_reply)
    (r : InfraResult) :
  (forall w, truthy w = true -> py_repr w <> []) ->
  wiradius_outcome n reply = inr r ->
  technology r <> []
  /\ float_field (first_truthy (raw r) (py "max_down") (py "download"))
     = inr (max_down_mbps r)
  /\ float_field (first_truthy (raw r) (py "max_up") (py "upload"))
     = inr (max_up_mbps r).
Proof.
  intros Hrepr. unfold wiradius_outcome.
  destruct reply as [kind msg|resp]; [discriminate|].
  destruct ((400 <=? status_code resp) && (status_code resp <? 600))%Z; [discriminate|].
  destruct (body resp) as [data|msg]; [|discriminate].
  destruct data; try discriminate.
  intros H. apply InfraResult_new_inv in H as (_ & Ht & Hd & Hu & _ & Hr).
  rewrite Hr, Ht. repeat split; auto.
  apply py_str_nonempty; auto using technology_of_truthy.
Qed.

Lemma error_result_shape {rt : Runtime} (n msg : pystr) :
  technology (error_result n msg) <> []
  /\ float_field (first_truthy (raw (error_result n msg)) (py "max_down") (py "download"))
     = inr (max_down_mbps (error_result n msg))
  /\ float_field (first_truthy (raw (error_result n msg)) (py "max_up") (py "upload"))
     = inr (max_up_mbps (error_result n msg)).
Proof.
  repeat split. vm_compute. discriminate.
Qed.

Lemma sample_repr_nonempty (w : json) : truthy w = true -> sample_repr w <> [].
Proof.
  destruct w as [| [|] | z | f | s | l | m]; simpl; intros H;
    try discriminate; try (vm_compute; discriminate).
  unfold repr_int. destruct (z <? 0)%Z; [discriminate|].
  simpl. intros E. apply app_eq_nil in E as [_ E]. discriminate.
Qed.

(** ** The examples of the specification *)

Example strip_example : strip (py "  Rize ") = py "Rize".
Proof. reflexivity. Qed.

Example rize_mock_and_directory :
  fst (@query_loop (sample_runtime (ok_json JNull)) [MockProvider; LinkOutProvider]
         (sample_address (py "Rize") None) [] [])
  = inr [mock_result (py "rize"); redirect_result]
  /\ technology (mock_result (py "rize")) = Fiber
  /\ max_down_mbps (mock_result (py "rize")) = Some 1000%float
  /\ max_up_mbps (mock_result (py "rize")) = Some 100%float.
Proof. repeat split. Qed.

Example ankara_mock_only :
  Address_new (py "Ankara") (py "Çankaya") None None None None None
  = inr {| il := py "Ankara"; ilce := py "Çankaya"; mahalle := None;
           cadde_sokak := None; bina_no := None; daire := None;
           tt_adres_kodu := None |}
  /\ fst (@query_loop (sample_runtime (ok_json JNull)) [MockProvider]
            {| il := py "Ankara"; ilce := py "Çankaya"; mahalle := None;
               cadde_sokak := None; bina_no := None; daire := None;
               tt_adres_kodu := None |} [] [])
     = inr [{| provider := py "Demo (Mock)"; technology := VDSL;
               max_down_mbps := Some 100%float; max_up_mbps := Some 8%float;
               port_available := Some true;
               raw := [(py "rule", JStr (py "demo"))] |}].
Proof. split; vm_compute; reflexivity. Qed.

(** A string literal is not empty. *)
Ltac literal_nonempty := vm_compute; discriminate.

(** * The properties of the specification *)

(** C1 as stated fails: the classification does not hold for every casing.
    "BARTIN" is the upper-casing of "Bartın", yet the first is classified
    Fiber and the second VDSL; likewise "rize" is Fiber and the Turkish
    capital spelling "RİZE" is VDSL, because its lower-case form carries a
    combining dot. *)
Lemma MockProvider_casing_changes_classification :
  let rt := sample_runtime (ok_json JNull) in
  let answer (tech : pystr) (down up : float) :=
    {| provider := py "Demo (Mock)"; technology := tech;
       max_down_mbps := Some down; max_up_mbps := Some up;
       port_available := Some true;
       raw := [(py "rule", JStr (py "demo"))] |} in
  sample_upper (py "Bartın") = py "BARTIN"
  /\ fst (@query rt MockProvider (sample_address (py "BARTIN") None) [])
     = inr [answer (py "Fiber") 1000%float 100%float]
  /\ fst (@query rt MockProvider (sample_address (py "Bartın") None) [])
     = inr [answer (py "VDSL") 100%float 8%float]
  /\ fst (@query rt MockProvider (sample_address (py "rize") None) [])
     = inr [answer (py "Fiber") 1000%float 100%float]
  /\ fst (@query rt MockProvider (sample_address (py "RİZE") None) [])
     = inr [answer (py "VDSL") 100%float 8%float]
  /\ @lower rt (py "RİZE") <> py "rize".
Proof.
  cbv zeta. repeat split; try (vm_compute; reflexivity).
  vm_compute. discriminate.
Qed.

(** C1, as the program has it.  For every address, [MockProvider.query]
    returns exactly one result and leaves the trace untouched; port
    availability is true; the technology is Fiber with 1000/100 Mbps when
    the lower-cased province is one of rize, artvin, trabzon, giresun, ordu,
    samsun, bartin, kastamonu, sinop, zonguldak, and VDSL with 100/8 Mbps
    otherwise.  The answer is the same for every re-casing of the ASCII
    letters of a province written in ASCII. *)
Theorem MockProvider_classifies_the_ten_provinces {rt : Runtime}
    (a : Address) (t : trace) (mask : list bool) :
  let names := [py "rize"; py "artvin"; py "trabzon"; py "giresun"; py "ordu";
                py "samsun"; py "bartin"; py "kastamonu"; py "sinop";
                py "zonguldak"] in
  (exists r,
     query MockProvider a t = (inr [r], t)
     /\ provider r = py "Demo (Mock)"
     /\ port_available r = Some true
     /\ raw r = [(py "rule", JStr (py "demo"))]
     /\ (In (lower (il a)) names ->
         technology r = py "Fiber"
         /\ max_down_mbps r = Some 1000%float /\ max_up_mbps r = Some 100%float)
     /\ (~ In (lower (il a)) names ->
         technology r = py "VDSL"
         /\ max_down_mbps r = Some 100%float /\ max_up_mbps r = Some 8%float))
  /\ (forallb is_ascii (il a) = true ->
      lower (il a) = map ascii_lower (il a)
      /\ query MockProvider (set_il a (recase mask (il a))) t = query MockProvider a t).
Proof.
  cbv zeta. split.
  - exists (mock_result (lower (il a))).
    split; [apply mock_query_eq|].
    unfold mock_result.
    pose proof (mem_In (lower (il a)) karadeniz) as M.
    destruct (mem (lower (il a)) karadeniz).
    + split; [reflexivity|]. split; [reflexivity|]. split; [reflexivity|]. split.
      * intros _. repeat split.
      * intros N. exfalso. apply N, M. reflexivity.
    + split; [reflexivity|]. split; [reflexivity|]. split; [reflexivity|]. split.
      * intros I. apply M in I. discriminate.
      * intros _. repeat split.
  - intros H. split.
    + unfold lower. now rewrite H.
    + rewrite !mock_query_eq. simpl. now rewrite (lower_recase mask _ H).
Qed.

Lemma MockProvider_classifies_the_ten_provinces_witness :
  (exists r,
     @query (sample_runtime (ok_json JNull)) MockProvider
        (sample_address (py "Rize") None) [] = (inr [r], [])
     /\ technology r = py "Fiber"
     /\ max_down_mbps r = Some 1000%float /\ max_up_mbps r = Some 100%float)
  /\ @query (sample_runtime (ok_json JNull)) MockProvider
       (set_il (sample_address (py "Rize") None) (py "rIZe")) []
     = @query (sample_runtime (ok_json JNull)) MockProvider
         (sample_address (py "Rize") None) [].
Proof.
  destruct (@MockProvider_classifies_the_ten_provinces
              (sample_runtime (ok_json JNull))
              (sample_address (py "Rize") None) []
              [false; true; true; false]) as [(r & Q & _ & _ & _ & F & _) R].
  split.
  - exists r. split; [exact Q|]. apply F. left. reflexivity.
  - apply R. reflexivity.
Defined.

(** C2.  With both credentials and the carrier address code non-empty, any
    HTTP failure (no response because of a timeout or a transport error, a
    4xx or 5xx status, a body that is not JSON) makes the Wiradius provider
    return, without raising, exactly one result: technology Error, the
    failure message under "error" in the raw details, every optional field
    unset.  Exactly one request was sent. *)
Theorem Wiradius_http_failure_gives_error_result {rt : Runtime}
    (api uniq code : pystr) (a : Address) (t : trace) (e : exn) :
  api <> [] -> uniq <> [] -> tt_adres_kodu a = Some code -> code <> [] ->
  http_failure (upstream t (wiradius_request api uniq code)) = Some e ->
  query (WiradiusTTProvider api uniq) a t =
    (inr [error_result (py "Wiradius – TT VAE (Opsiyonel)") (str_exn e)],
     t ++ [Posted (wiradius_request api uniq code)]).
Proof.
  intros Ha Hu Hk Hc Hf.
  rewrite (wiradius_query_eq a t Ha Hu Hk Hc).
  now rewrite (http_failure_outcome _ _ Hf).
Qed.

Lemma Wiradius_http_failure_gives_error_result_witness :
  @query (sample_runtime (Responded {| status_code := 503; body := Parsed (JObj []) |}))
     (WiradiusTTProvider (py "api") (py "uniq"))
     (sample_address (py "Rize") (Some (py "1234567890"))) []
  = (inr [error_result (py "Wiradius – TT VAE (Opsiyonel)") (py "503 Error")],
     [Posted (wiradius_request (py "api") (py "uniq") (py "1234567890"))]).
Proof.
  apply (@Wiradius_http_failure_gives_error_result
           (sample_runtime (Responded {| status_code := 503; body := Parsed (JObj []) |}))
           (py "api") (py "uniq") (py "1234567890")
           (sample_address (py "Rize") (Some (py "1234567890"))) []
           (HTTPError 503)).
  - literal_nonempty.
  - literal_nonempty.
  - reflexivity.
  - literal_nonempty.
  - reflexivity.
Defined.

(** C3.  When the first credential, the second credential or the address's
    carrier address code is empty, the Wiradius provider returns the empty
    list and sends nothing. *)
Theorem Wiradius_inapplicable_returns_empty {rt : Runtime}
    (api uniq : pystr) (a : Address) (t : trace) :
  api = [] \/ uniq = [] \/ tt_adres_kodu a = None \/ tt_adres_kodu a = Some [] ->
  query (WiradiusTTProvider api uniq) a t = (inr [], t).
Proof.
  intros H. apply wiradius_guard_closed.
  destruct H as [-> | [-> | [-> | ->]]]; simpl;
    rewrite ?andb_false_r; reflexivity.
Qed.

Lemma Wiradius_inapplicable_returns_empty_witness :
  @query (sample_runtime (ok_json JNull)) (WiradiusTTProvider (py "api") (py ""))
     (sample_address (py "Rize") (Some (py "1234567890"))) []
  = (inr [], []).
Proof.
  apply (@Wiradius_inapplicable_returns_empty (sample_runtime (ok_json JNull))).
  right; left; reflexivity.
Defined.

(** C4.  For every address and every list of providers the aggregation
    loop returns, without raising, the concatenation of the providers' own
    result lists in list order: one list per provider, each the answer of
    the provider at that position, the total length the sum of the lengths.
    Whatever a provider in the middle answers (nothing, an error result),
    the results of the providers after it follow. *)
Theorem aggregate_is_concatenation_in_provider_order {rt : Runtime}
    (ps ps1 ps2 : list Provider) (p : Provider) (a : Address) (t : trace) :
  let outs := provider_outputs ps a t in
  query_loop ps a [] t = (inr (List.concat outs), trace_after ps a t)
  /\ List.length outs = List.length ps
  /\ Forall2 (fun q rs => exists t1 t2, query q a t1 = (inr rs, t2)) ps outs
  /\ List.length (List.concat outs) = list_sum (map (@List.length InfraResult) outs)
  /\ exists res t2,
       query p a (announced p (trace_after ps1 a t)) = (inr res, t2)
       /\ fst (query_loop (ps1 ++ p :: ps2) a [] t) =
            inr (List.concat (provider_outputs ps1 a t) ++ res
                   ++ List.concat (provider_outputs ps2 a t2)).
Proof.
  cbv zeta. repeat split.
  - apply (query_loop_eq ps a [] t).
  - apply provider_outputs_length.
  - apply provider_outputs_own.
  - apply length_concat_sum.
  - destruct (query_total p a (announced p (trace_after ps1 a t))) as (res & ext & Q).
    exists res, (announced p (trace_after ps1 a t) ++ ext). split; [exact Q|].
    rewrite query_loop_eq. simpl fst.
    rewrite provider_outputs_app. simpl provider_outputs. rewrite Q.
    now rewrite concat_app.
Qed.

(** C5 as stated fails: a negative speed in the upstream body reaches the
    result unchanged. *)
Lemma Wiradius_passes_negative_speed :
  let body := [(py "technology", JStr (py "VDSL")); (py "max_down", JFloat (-5)%float)] in
  let r := {| provider := py "Wiradius – TT VAE (Opsiyonel)";
              technology := py "VDSL";
              max_down_mbps := Some (-5)%float;
              max_up_mbps := None;
              port_available := None;
              raw := body |} in
  @query (sample_runtime (ok_json (JObj body)))
     (WiradiusTTProvider (py "api") (py "uniq"))
     (sample_address (py "Rize") (Some (py "1234567890"))) []
  = (inr [r], [Posted (wiradius_request (py "api") (py "uniq") (py "1234567890"))])
  /\ speeds_nonneg r = false.
Proof.
  split; vm_compute; reflexivity.
Qed.

(** C5, as the program has it.  Every result of every provider has its
    technology set (a non-empty string).  The speeds of the mock and of the
    directory provider are non-negative when present.  The speeds of a
    Wiradius result are the values found in its raw details (the upstream
    body, or the error record), read as floats with no check of their
    sign. *)
Theorem technology_set_and_speeds_as_produced {rt : Runtime}
    (p : Provider) (a : Address) (t : trace) :
  (forall w, truthy w = true -> py_repr w <> []) ->
  exists rs t',
    query p a t = (inr rs, t')
    /\ Forall (fun r => technology r <> []) rs
    /\ match p with
       | WiradiusTTProvider _ _ =>
           Forall (fun r =>
                     float_field (first_truthy (raw r) (py "max_down") (py "download"))
                     = inr (max_down_mbps r)
                     /\ float_field (first_truthy (raw r) (py "max_up") (py "upload"))
                        = inr (max_up_mbps r)) rs
       | _ => Forall (fun r => speeds_nonneg r = true) rs
       end.
Proof.
  intros Hrepr. destruct p as [|api uniq|].
  - exists [mock_result (lower (il a))], t. split; [apply mock_query_eq|].
    unfold mock_result.
    split; repeat constructor; destruct (mem (lower (il a)) karadeniz);
      vm_compute; congruence.
  - destruct (PyStr.truthy api && PyStr.truthy uniq && truthy_opt (tt_adres_kodu a)) eqn:G.
    + apply andb_true_iff in G as [G Hk]. apply andb_true_iff in G as [Ha Hu].
      apply truthy_str_iff in Ha, Hu.
      destruct (tt_adres_kodu a) as [code|] eqn:K; [|discriminate].
      simpl in Hk. apply truthy_str_iff in Hk.
      eexists _, _. split; [apply (wiradius_query_eq a t Ha Hu K Hk)|].
      destruct (wiradius_outcome _ _) as [e|r] eqn:O.
      * destruct (error_result_shape (name (WiradiusTTProvider api uniq)) (str_exn e))
          as (H1 & H2 & H3).
        split; repeat constructor; assumption.
      * destruct (wiradius_outcome_shape _ _ Hrepr O) as (H1 & H2 & H3).
        split; repeat constructor; assumption.
    + exists [], t. split; [now apply wiradius_guard_closed|]. split; constructor.
  - exists [redirect_result], t. split; [apply linkout_query_eq|].
    split; repeat constructor. vm_compute. discriminate.
Qed.

Lemma technology_set_and_speeds_as_produced_witness :
  exists rs t',
    @query (sample_runtime (ok_json (JObj [(py "tech", JInt 5)])))
       (WiradiusTTProvider (py "api") (py "uniq"))
       (sample_address (py "Rize") (Some (py "1234567890"))) []
    = (inr rs, t')
    /\ Forall (fun r => technology r <> []) rs
    /\ Forall (fun r =>
                 @float_field (sample_runtime (ok_json (JObj [(py "tech", JInt 5)])))
                   (first_truthy (raw r) (py "max_down") (py "download"))
                 = inr (max_down_mbps r)
                 /\ @float_field (sample_runtime (ok_json (JObj [(py "tech", JInt 5)])))
                      (first_truthy (raw r) (py "max_up") (py "upload"))
                    = inr (max_up_mbps r)) rs.
Proof.
  apply (@technology_set_and_speeds_as_produced
           (sample_runtime (ok_json (JObj [(py "tech", JInt 5)])))
           (WiradiusTTProvider (py "api") (py "uniq"))
           (sample_address (py "Rize") (Some (py "1234567890"))) []).
  exact sample_repr_nonempty.
Defined.

(** C6.  Building an address fails with a validation error exactly when the
    province or the district is blank (empty or whitespace only), and then
    the submit handler does nothing but show the error: no provider is
    announced or queried, nothing is sent, no result is shown.  Otherwise it
    succeeds and stores both fields stripped, non-empty and free of leading
    and trailing whitespace, the optional fields as given. *)
Theorem Address_validation_gates_the_query {rt : Runtime}
    (f : Form) (m s b d k : option pystr) (WIR_API WIR_UNIQ : pystr) (t : trace) :
  if blank (il_input f) || blank (ilce_input f)
  then exists fields,
         fields <> []
         /\ Address_new (il_input f) (ilce_input f) m s b d k
            = inl (ValidationError (py "Address") fields)
         /\ on_submit WIR_API WIR_UNIQ f t
            = (inr tt,
               t ++ [ErrorBox (py "Form doğrulama hatası: "
                               ++ str_exn (ValidationError (py "Address") fields))])
  else Address_new (il_input f) (ilce_input f) m s b d k
       = inr {| il := strip (il_input f); ilce := strip (ilce_input f);
                mahalle := m; cadde_sokak := s; bina_no := b; daire := d;
                tt_adres_kodu := k |}
       /\ strip (il_input f) <> [] /\ strip (ilce_input f) <> []
       /\ trimmed (strip (il_input f)) /\ trimmed (strip (ilce_input f)).
Proof.
  destruct (blank (il_input f) || blank (ilce_input f)) eqn:B.
  - destruct (Address_new_blank (il_input f) (ilce_input f) m s b d k B)
      as (fields & Hne & Hnew).
    exists fields. repeat split; [exact Hne|exact Hnew|].
    destruct (Address_new_blank (il_input f) (ilce_input f)
                (Some (mahalle_input f)) (Some (cadde_input f))
                (Some (bina_no_input f)) (Some (daire_input f))
                (Some (tt_kod_input f)) B) as (fields' & _ & Hnew').
    assert (fields' = fields).
    { unfold Address_new in Hnew, Hnew'.
      destruct (non_empty (il_input f)), (non_empty (ilce_input f)); congruence. }
    subst fields'.
    unfold on_submit, try_except, bind, lift. rewrite Hnew'. reflexivity.
  - apply orb_false_iff in B as [Bi Bc].
    repeat split; auto using strip_not_blank, Address_new_ok;
      apply strip_trimmed.
Qed.

(** C7 as stated fails: a zero under the first name is not null, yet the
    value under the second name is taken. *)
Lemma Wiradius_skips_zero_speed :
  let body := [(py "max_down", JInt 0); (py "download", JInt 50)] in
  let rt := sample_runtime (ok_json (JObj body)) in
  let r := {| provider := py "Wiradius – TT VAE (Opsiyonel)";
              technology := Unknown;
              max_down_mbps := Some 50%float;
              max_up_mbps := None;
              port_available := None;
              raw := body |} in
  @query rt (WiradiusTTProvider (py "api") (py "uniq"))
     (sample_address (py "Rize") (Some (py "1234567890"))) []
  = (inr [r], [Posted (wiradius_request (py "api") (py "uniq") (py "1234567890"))])
  /\ first_non_null body (py "max_down") (py "download") = JInt 0
  /\ @float_field rt (first_non_null body (py "max_down") (py "download"))
     = inr (Some 0%float)
  /\ max_down_mbps r <> Some 0%float.
Proof.
  cbv zeta. repeat split; try (vm_compute; reflexivity).
  intros H.
  apply (f_equal (fun o => match o with
                           | Some x => PrimFloat.eqb x 0%float
                           | None => false
                           end)) in H.
  vm_compute in H. discriminate.
Qed.

(** C7, as the program has it.  On a response whose status is not 4xx or
    5xx and whose body is a JSON object, the provider takes as technology
    [str] of the first truthy value among "technology" and "tech" (Unknown
    when neither is truthy), as download and upload speed the first truthy
    value among "max_down", "download" and among "max_up", "upload" (the
    second one when neither is truthy), as port availability the value under
    "port_available"; when pydantic accepts the three values it returns
    exactly one result, with them as fields and the whole body as raw
    details. *)
Theorem Wiradius_extracts_first_truthy {rt : Runtime}
    (api uniq code : pystr) (a : Address) (t : trace) (resp : response) (m : dict)
    (d u : option float) (p : option bool) :
  api <> [] -> uniq <> [] -> tt_adres_kodu a = Some code -> code <> [] ->
  upstream t (wiradius_request api uniq code) = Responded resp ->
  (status_code resp < 400 \/ 600 <= status_code resp)%Z ->
  body resp = Parsed (JObj m) ->
  float_field (first_truthy m (py "max_down") (py "download")) = inr d ->
  float_field (first_truthy m (py "max_up") (py "upload")) = inr u ->
  bool_field (field m (py "port_available")) = inr p ->
  query (WiradiusTTProvider api uniq) a t =
    (inr [{| provider := py "Wiradius – TT VAE (Opsiyonel)";
             technology := py_str (technology_of m);
             max_down_mbps := d;
             max_up_mbps := u;
             port_available := p;
             raw := m |}],
     t ++ [Posted (wiradius_request api uniq code)]).
Proof.
  intros Ha Hu Hk Hc Hr Hs Hb Hd Hup Hp.
  rewrite (wiradius_query_eq a t Ha Hu Hk Hc), Hr.
  unfold wiradius_outcome. rewrite Hb.
  assert (S : ((400 <=? status_code resp) && (status_code resp <? 600))%Z = false).
  { apply andb_false_iff. destruct Hs; [left; apply Z.leb_gt|right; apply Z.ltb_ge]; lia. }
  rewrite S.
  now rewrite (InfraResult_new_ok _ _ _ _ _ m Hd Hup Hp).
Qed.

Lemma Wiradius_extracts_first_truthy_witness :
  @query (sample_runtime (ok_json (JObj sample_body)))
     (WiradiusTTProvider (py "api") (py "uniq"))
     (sample_address (py "Rize") (Some (py "1234567890"))) []
  = (inr [{| provider := py "Wiradius – TT VAE (Opsiyonel)";
             technology := py "Fiber";
             max_down_mbps := Some 1000%float;
             max_up_mbps := Some 100%float;
             port_available := Some false;
             raw := sample_body |}],
     [Posted (wiradius_request (py "api") (py "uniq") (py "1234567890"))]).
Proof.
  apply (@Wiradius_extracts_first_truthy
           (sample_runtime (ok_json (JObj sample_body)))
           (py "api") (py "uniq") (py "1234567890")
           (sample_address (py "Rize") (Some (py "1234567890"))) []
           {| status_code := 200; body := Parsed (JObj sample_body) |}
           sample_body (Some 1000%float) (Some 100%float) (Some false)).
  - literal_nonempty.
  - literal_nonempty.
  - reflexivity.
  - literal_nonempty.
  - reflexivity.
  - left. simpl. lia.
  - reflexivity.
  - reflexivity.
  - reflexivity.
  - reflexivity.
Defined.

(** C8.  For every address, [LinkOutProvider.query] returns exactly one
    result with technology Redirect whose raw details are the whole table of
    official pages; the address plays no part, nothing is raised and the
    trace is left as it was. *)
Theorem LinkOutProvider_returns_link_table {rt : Runtime} (a a' : Address) (t : trace) :
  query LinkOutProvider a t =
    (inr [{| provider := py "Resmî Sayfalar – Yönlendirme";
             technology := Redirect;
             max_down_mbps := None;
             max_up_mbps := None;
             port_available := None;
             raw := LINKS |}],
     t)
  /\ query LinkOutProvider a' t = query LinkOutProvider a t.
Proof.
  split.
  - apply linkout_query_eq.
  - now rewrite !linkout_query_eq.
Qed.

(** C9.  The mock and the directory provider are pure: called twice in a
    row on the same address they give the same list of results both times,
    whatever the trace, and leave the trace unchanged. *)
Theorem Mock_and_LinkOut_idempotent {rt : Runtime} (a : Address) (t t' : trace) :
  (exists rs, twice MockProvider a t = (inr (rs, rs), t)
              /\ query MockProvider a t' = (inr rs, t'))
  /\ (exists rs, twice LinkOutProvider a t = (inr (rs, rs), t)
                 /\ query LinkOutProvider a t' = (inr rs, t')).
Proof.
  split.
  - exists [mock_result (lower (il a))]. split; [|apply mock_query_eq].
    unfold twice.
    rewrite (@bind_ok _ _ _ _ _ _ _ (mock_query_eq a t)).
    rewrite (@bind_ok _ _ _ _ _ _ _ (mock_query_eq a t)).
    reflexivity.
  - exists [redirect_result]. split; reflexivity.
Qed.

(** C10.  The mock provider looks at the province only: two addresses with
    the same [il] get the same answer, whatever their other fields. *)
Theorem MockProvider_depends_on_il_only {rt : Runtime} (a1 a2 : Address) (t : trace) :
  il a1 = il a2 ->
  query MockProvider a1 t = query MockProvider a2 t.
Proof.
  intros H. now rewrite !mock_query_eq, H.
Qed.

Lemma MockProvider_depends_on_il_only_witness :
  @query (sample_runtime (ok_json JNull)) MockProvider
     {| il := py "Ordu"; ilce := py "Fatsa"; mahalle := None;
        cadde_sokak := Some (py "Sahil"); bina_no := Some (py "7");
        daire := None; tt_adres_kodu := Some (py "42") |} []
  = @query (sample_runtime (ok_json JNull)) MockProvider
      (sample_address (py "Ordu") None) [].
Proof.
  apply (@MockProvider_depends_on_il_only (sample_runtime (ok_json JNull))).
  reflexivity.
Defined.

(** * Further properties of the program *)

(** ** Showing results *)

Lemma link_buttons_eq (m : dict) (t : trace) :
  link_buttons m t = (inr tt, t ++ map (fun kv => LinkButton (fst kv) (snd kv)) m).
Proof.
  revert t. induction m as [|[l u] r IH]; intros t; simpl.
  - now rewrite app_nil_r.
  - unfold bind, emit. rewrite IH. now rewrite <- app_assoc.
Qed.

Lemma render_eq (r : InfraResult) (t : trace) :
  render r t = (inr tt, t ++ render_events r).
Proof.
  unfold render, render_events, bind, emit.
  destruct (startswith (provider r) (py "Resmî") && truthy (JObj (raw r))).
  - rewrite link_buttons_eq. now rewrite <- !app_assoc.
  - reflexivity.
Qed.

Lemma render_all_eq (rs : list InfraResult) (t : trace) :
  render_all rs t = (inr tt, t ++ flat_map render_events rs).
Proof.
  revert t. induction rs as [|r rest IH]; intros t; simpl.
  - now rewrite app_nil_r.
  - unfold bind. rewrite render_eq, IH. now rewrite <- app_assoc.
Qed.

Lemma Address_new_validated (f : Form) :
  blank (il_input f) || blank (ilce_input f) = false ->
  Address_new (il_input f) (ilce_input f)
    (Some (mahalle_input f)) (Some (cadde_input f))
    (Some (bina_no_input f)) (Some (daire_input f))
    (Some (tt_kod_input f)) = inr (validated f).
Proof.
  intros B. apply orb_false_iff in B as [Bi Bc]. now apply Address_new_ok.
Qed.

(** A submit with a valid address: sub-header, the loop, the results. *)
Lemma on_submit_valid {rt : Runtime} (WIR_API WIR_UNIQ : pystr) (f : Form) (t : trace) :
  blank (il_input f) || blank (ilce_input f) = false ->
  on_submit WIR_API WIR_UNIQ f t =
    (inr tt,
     trace_after (active_providers WIR_API WIR_UNIQ f) (validated f)
       (t ++ [Subheader (py "Sonuçlar")])
     ++ flat_map render_events
          (List.concat (provider_outputs (active_providers WIR_API WIR_UNIQ f)
                          (validated f) (t ++ [Subheader (py "Sonuçlar")])))).
Proof.
  intros B. unfold on_submit, try_except.
  unfold bind at 1. unfold lift. rewrite (Address_new_validated f B).
  unfold bind at 1. unfold emit.
  unfold bind at 1. rewrite query_loop_eq. simpl List.app.
  now rewrite render_all_eq.
Qed.

(** ** Reading the trace of the loop *)

Lemma posts_app (t1 t2 : trace) : posts (t1 ++ t2) = posts t1 ++ posts t2.
Proof. apply flat_map_app. Qed.

Lemma containers_app (t1 t2 : trace) :
  containers (t1 ++ t2) = containers t1 ++ containers t2.
Proof. apply flat_map_app. Qed.

Lemma link_buttons_shown_app (t1 t2 : trace) :
  link_buttons_shown (t1 ++ t2) = link_buttons_shown t1 ++ link_buttons_shown t2.
Proof. apply flat_map_app. Qed.

Lemma error_boxes_app (t1 t2 : trace) :
  error_boxes (t1 ++ t2) = error_boxes t1 ++ error_boxes t2.
Proof. apply flat_map_app. Qed.

Lemma loop_events_show_nothing (ext : trace) :
  forallb loop_event ext = true ->
  containers ext = [] /\ link_buttons_shown ext = [] /\ error_boxes ext = [].
Proof.
  induction ext as [|e r IH]; simpl; [auto|].
  intros H. apply andb_true_iff in H as [He Hr].
  destruct (IH Hr) as (C & L & E).
  destruct e; simpl in *; try discriminate; auto.
Qed.

Lemma posts_announced {rt : Runtime} (p : Provider) (t : trace) :
  posts (announced p t) = posts t.
Proof.
  unfold announced. rewrite !posts_app. simpl. now rewrite !app_nil_r.
Qed.

Lemma wiradius_outcome_provider {rt : Runtime} (n : pystr) (reply : http_reply) :
  provider (match wiradius_outcome n reply with
            | inr r => r
            | inl e => error_result n (str_exn e)
            end) = n.
Proof.
  destruct (wiradius_outcome n reply) as [e|r] eqn:O; [reflexivity|].
  unfold wiradius_outcome in O.
  destruct reply as [kind msg|resp]; [discriminate|].
  destruct ((400 <=? status_code resp) && (status_code resp <? 600))%Z; [discriminate|].
  destruct (body resp) as [data|msg]; [|discriminate].
  destruct data; try discriminate.
  now apply InfraResult_new_inv in O as (Hp & _).
Qed.

(** Every provider answers with at most one result, under its own name,
    and adds nothing to the trace but the requests it sent: none for the
    mock and the directory, at most one for the Wiradius provider. *)
Lemma query_shape {rt : Runtime} (p : Provider) (a : Address) (t : trace) :
  exists rs reqs,
    query p a t = (inr rs, t ++ map Posted reqs)
    /\ Forall (fun r => provider r = name p) rs
    /\ List.length rs <= 1
    /\ List.length reqs <= List.length rs.
Proof.
  destruct p as [|api uniq|].
  - exists [mock_result (lower (il a))], []. simpl. rewrite app_nil_r.
    repeat split; [apply mock_query_eq|repeat constructor|lia|lia].
  - destruct (PyStr.truthy api && PyStr.truthy uniq && truthy_opt (tt_adres_kodu a)) eqn:G.
    + apply andb_true_iff in G as [G Hk]. apply andb_true_iff in G as [Ha Hu].
      apply truthy_str_iff in Ha, Hu.
      destruct (tt_adres_kodu a) as [code|] eqn:K; [|discriminate].
      simpl in Hk. apply truthy_str_iff in Hk.
      eexists _, [wiradius_request api uniq code].
      split; [apply (wiradius_query_eq a t Ha Hu K Hk)|].
      repeat split; simpl; try lia.
      constructor; [|constructor]. apply wiradius_outcome_provider.
    + exists [], []. simpl. rewrite app_nil_r.
      repeat split; [now apply wiradius_guard_closed|constructor|lia|lia].
  - exists [redirect_result], []. simpl. rewrite app_nil_r.
    repeat split; [repeat constructor|lia|lia].
Qed.

Lemma forallb_loop_posted (reqs : list request) :
  forallb loop_event (map Posted reqs) = true.
Proof. induction reqs; simpl; auto. Qed.

(** The loop only adds spinners, delays and requests to the trace. *)
Lemma loop_trace_shape {rt : Runtime} (ps : list Provider) (a : Address) (t : trace) :
  exists ext, trace_after ps a t = t ++ ext /\ forallb loop_event ext = true.
Proof.
  revert t. induction ps as [|p rest IH]; intros t.
  - exists []. simpl. now rewrite app_nil_r.
  - destruct (query_shape p a (announced p t)) as (rs & reqs & Q & _).
    simpl. rewrite Q. simpl snd.
    destruct (IH (announced p t ++ map Posted reqs)) as (ext & E & F).
    exists ([Spinner (name p ++ py " sorgulanıyor..."); Slept 200]
              ++ map Posted reqs ++ ext).
    split.
    + rewrite E. unfold announced. now rewrite <- !app_assoc.
    + rewrite !forallb_app, forallb_loop_posted, F. reflexivity.
Qed.

Lemma provider_outputs_cons {rt : Runtime} (p : Provider) (rest : list Provider)
    (a : Address) (t t' : trace) (res : list InfraResult) :
  query p a (announced p t) = (inr res, t') ->
  provider_outputs (p :: rest) a t = res :: provider_outputs rest a t'
  /\ trace_after (p :: rest) a t = trace_after rest a t'.
Proof.
  intros Q. split; simpl; now rewrite Q.
Qed.

(** ** The providers of a submit *)

Lemma truthy_str_false' (s : pystr) : PyStr.truthy s = false -> s = [].
Proof. destruct s; simpl; congruence. Qed.

Lemma active_providers_resolved (WIR_API WIR_UNIQ : pystr) (f : Form) :
  active_providers WIR_API WIR_UNIQ f =
    MockProvider
      :: match resolved_credentials WIR_API WIR_UNIQ f with
         | Some (api, uniq) => [WiradiusTTProvider api uniq; LinkOutProvider]
         | None => [LinkOutProvider]
         end.
Proof.
  unfold active_providers, resolved_credentials.
  destruct (PyStr.truthy (wir_api_input f) && PyStr.truthy (wir_uniq_input f));
    [reflexivity|].
  destruct (PyStr.truthy WIR_API && PyStr.truthy WIR_UNIQ); reflexivity.
Qed.

Lemma resolved_credentials_nonempty (WIR_API WIR_UNIQ : pystr) (f : Form)
    (api uniq : pystr) :
  resolved_credentials WIR_API WIR_UNIQ f = Some (api, uniq) ->
  api <> [] /\ uniq <> [].
Proof.
  unfold resolved_credentials.
  destruct (PyStr.truthy (wir_api_input f) && PyStr.truthy (wir_uniq_input f)) eqn:F.
  - intros H. inversion H; subst.
    apply andb_true_iff in F as [F1 F2]. now rewrite <- !truthy_str_iff.
  - destruct (PyStr.truthy WIR_API && PyStr.truthy WIR_UNIQ) eqn:E; [|discriminate].
    intros H. inversion H; subst.
    apply andb_true_iff in E as [E1 E2]. now rewrite <- !truthy_str_iff.
Qed.

(** The results and the requests of one valid submit. *)
Lemma submit_loop {rt : Runtime} (WIR_API WIR_UNIQ : pystr) (f : Form) (t0 : trace) :
  exists mid,
    List.concat (provider_outputs (active_providers WIR_API WIR_UNIQ f) (validated f) t0)
    = mock_result (lower (strip (il_input f))) :: mid ++ [redirect_result]
    /\ Forall (fun r => provider r = py "Wiradius – TT VAE (Opsiyonel)") mid
    /\ List.length mid = List.length (submit_request WIR_API WIR_UNIQ f)
    /\ posts (trace_after (active_providers WIR_API WIR_UNIQ f) (validated f) t0)
       = posts t0 ++ submit_request WIR_API WIR_UNIQ f.
Proof.
  rewrite active_providers_resolved. unfold submit_request.
  pose proof (mock_query_eq (validated f) (announced MockProvider t0)) as QM.
  destruct (@provider_outputs_cons _ _
              (match resolved_credentials WIR_API WIR_UNIQ f with
               | Some (api, uniq) => [WiradiusTTProvider api uniq; LinkOutProvider]
               | None => [LinkOutProvider]
               end) _ _ _ _ QM) as [OM TM].
  rewrite OM, TM. clear OM TM QM.
  set (t1 := announced MockProvider t0).
  assert (P1 : posts t1 = posts t0) by apply posts_announced.
  destruct (resolved_credentials WIR_API WIR_UNIQ f) as [[api uniq]|] eqn:R.
  - destruct (resolved_credentials_nonempty _ _ _ R) as [Ha Hu].
    destruct (PyStr.truthy (tt_kod_input f)) eqn:K.
    + apply truthy_str_iff in K.
      pose proof (@wiradius_query_eq _ api uniq (tt_kod_input f) (validated f)
                    (announced (WiradiusTTProvider api uniq) t1) Ha Hu eq_refl K) as QW.
      destruct (@provider_outputs_cons _ _ [LinkOutProvider] _ _ _ _ QW) as [OW TW].
      rewrite OW, TW. clear OW TW.
      match type of QW with _ = (inr [?r], ?t2) =>
        pose proof (linkout_query_eq (validated f) (announced LinkOutProvider t2)) as QL;
        destruct (@provider_outputs_cons _ _ [] _ _ _ _ QL) as [OL TL];
        exists [r]
      end.
      rewrite OL, TL. simpl.
      repeat split.
      * constructor; [|constructor]. apply wiradius_outcome_provider.
      * rewrite posts_announced, posts_app, posts_announced, P1. reflexivity.
    + apply truthy_str_false' in K.
      assert (G : PyStr.truthy api && PyStr.truthy uniq
                  && truthy_opt (tt_adres_kodu (validated f)) = false).
      { simpl. rewrite K. simpl. now rewrite andb_false_r. }
      pose proof (wiradius_guard_closed api uniq (validated f)
                    (announced (WiradiusTTProvider api uniq) t1) G) as QW.
      destruct (@provider_outputs_cons _ _ [LinkOutProvider] _ _ _ _ QW) as [OW TW].
      rewrite OW, TW. clear OW TW.
      pose proof (linkout_query_eq (validated f)
                    (announced LinkOutProvider
                       (announced (WiradiusTTProvider api uniq) t1))) as QL.
      destruct (@provider_outputs_cons _ _ [] _ _ _ _ QL) as [OL TL].
      rewrite OL, TL. exists []. simpl.
      repeat split; [constructor|].
      rewrite !posts_announced, P1. now rewrite app_nil_r.
  - pose proof (linkout_query_eq (validated f) (announced LinkOutProvider t1)) as QL.
    destruct (@provider_outputs_cons _ _ [] _ _ _ _ QL) as [OL TL].
    rewrite OL, TL. exists []. simpl.
    repeat split; [constructor|].
    rewrite posts_announced, P1. now rewrite app_nil_r.
Qed.

(** ** What a submit shows *)

Lemma containers_link_buttons (m : dict) :
  containers (map (fun kv => LinkButton (fst kv) (snd kv)) m) = []
  /\ error_boxes (map (fun kv => LinkButton (fst kv) (snd kv)) m) = []
  /\ link_buttons_shown (map (fun kv => LinkButton (fst kv) (snd kv)) m) = m.
Proof.
  induction m as [|[l u] r (C & E & L)]; simpl; [auto|].
  repeat split; auto. unfold link_buttons_shown in *. simpl. now rewrite L.
Qed.

Lemma render_events_read (r : InfraResult) :
  containers (render_events r) = [r] /\ error_boxes (render_events r) = [].
Proof.
  unfold render_events.
  destruct (startswith (provider r) (py "Resmî") && truthy (JObj (raw r)));
    [|split; reflexivity].
  destruct (containers_link_buttons (raw r)) as (C & E & _).
  split.
  - change (r :: containers (map (fun kv => LinkButton (fst kv) (snd kv)) (raw r)) = [r]).
    now rewrite C.
  - change (error_boxes (map (fun kv => LinkButton (fst kv) (snd kv)) (raw r)) = []).
    exact E.
Qed.

Lemma rendered_read (rs : list InfraResult) :
  containers (flat_map render_events rs) = rs
  /\ error_boxes (flat_map render_events rs) = [].
Proof.
  induction rs as [|r rest (C & E)]; [auto|].
  change (flat_map render_events (r :: rest))
    with (render_events r ++ flat_map render_events rest).
  destruct (render_events_read r) as (Cr & Er).
  rewrite containers_app, error_boxes_app, Cr, Er, C, E. auto.
Qed.

Lemma render_events_plain (r : InfraResult) :
  startswith (provider r) (py "Resmî") = false -> render_events r = [Container r].
Proof.
  intros H. unfold render_events. now rewrite H.
Qed.

Lemma rendered_plain (rs : list InfraResult) :
  Forall (fun r => provider r = py "Wiradius – TT VAE (Opsiyonel)") rs ->
  link_buttons_shown (flat_map render_events rs) = [].
Proof.
  induction 1 as [|r rest Hr _ IH]; [reflexivity|].
  change (flat_map render_events (r :: rest))
    with (render_events r ++ flat_map render_events rest).
  rewrite link_buttons_shown_app, IH, render_events_plain; [reflexivity|].
  rewrite Hr. reflexivity.
Qed.

Lemma on_submit_invalid {rt : Runtime} (WIR_API WIR_UNIQ : pystr) (f : Form) (t : trace) :
  blank (il_input f) || blank (ilce_input f) = true ->
  exists msg, on_submit WIR_API WIR_UNIQ f t = (inr tt, t ++ [ErrorBox msg]).
Proof.
  intros B.
  destruct (Address_new_blank (il_input f) (ilce_input f)
              (Some (mahalle_input f)) (Some (cadde_input f))
              (Some (bina_no_input f)) (Some (daire_input f))
              (Some (tt_kod_input f)) B) as (fields & _ & Hnew).
  eexists. unfold on_submit, try_except, bind, lift. rewrite Hnew. reflexivity.
Qed.

Lemma submit_request_length (WIR_API WIR_UNIQ : pystr) (f : Form) :
  List.length (submit_request WIR_API WIR_UNIQ f) <= 1.
Proof.
  unfold submit_request.
  destruct (resolved_credentials WIR_API WIR_UNIQ f) as [[api uniq]|]; simpl; [|lia].
  destruct (PyStr.truthy (tt_kod_input f)); simpl; lia.
Qed.

(** X1.  The results a valid submit shows are the mock's answer for the
    stripped, lower-cased province, then the Wiradius provider's answer if a
    request was sent, then the directory: two or three containers, as many
    beyond two as requests sent. *)
Theorem submit_shows_mock_remote_directory {rt : Runtime}
    (WIR_API WIR_UNIQ : pystr) (f : Form) (t : trace) :
  blank (il_input f) || blank (ilce_input f) = false ->
  exists mid,
    containers (snd (on_submit WIR_API WIR_UNIQ f t))
    = containers t ++ mock_result (lower (strip (il_input f))) :: mid ++ [redirect_result]
    /\ Forall (fun r => provider r = py "Wiradius – TT VAE (Opsiyonel)") mid
    /\ List.length mid = List.length (submit_request WIR_API WIR_UNIQ f)
    /\ List.length mid <= 1.
Proof.
  intros B. rewrite (on_submit_valid _ _ _ _ B). cbn [snd].
  destruct (submit_loop WIR_API WIR_UNIQ f (t ++ [Subheader (py "Sonuçlar")]))
    as (mid & Hres & Hmid & Hlen & _).
  destruct (loop_trace_shape (active_providers WIR_API WIR_UNIQ f) (validated f)
              (t ++ [Subheader (py "Sonuçlar")])) as (ext & Hext & Fext).
  destruct (loop_events_show_nothing _ Fext) as (Cext & _ & _).
  exists mid. repeat split; auto.
  - rewrite Hres, Hext, !containers_app, Cext.
    destruct (rendered_read (mock_result (lower (strip (il_input f)))
                               :: mid ++ [redirect_result])) as (C & _).
    rewrite C. simpl. now rewrite !app_nil_r.
  - rewrite Hlen. apply submit_request_length.
Qed.

Lemma submit_shows_mock_remote_directory_witness :
  exists mid,
    containers (snd (@on_submit (sample_runtime (ok_json (JObj sample_body)))
                       (py "") (py "")
                       (sample_form (py " RIZE ") (py "1234567890") (py "api") (py "uniq"))
                       []))
    = containers [] ++ mock_result (@lower (sample_runtime (ok_json (JObj sample_body)))
                                      (strip (py " RIZE ")))
                       :: mid ++ [redirect_result]
    /\ Forall (fun r => provider r = py "Wiradius – TT VAE (Opsiyonel)") mid
    /\ List.length mid
       = List.length (submit_request (py "") (py "")
                        (sample_form (py " RIZE ") (py "1234567890") (py "api") (py "uniq")))
    /\ List.length mid <= 1.
Proof.
  apply (@submit_shows_mock_remote_directory
           (sample_runtime (ok_json (JObj sample_body))) (py "") (py "")
           (sample_form (py " RIZE ") (py "1234567890") (py "api") (py "uniq")) []).
  reflexivity.
Defined.

(** X2.  A submit sends at most one request: none when the address is refused,
    when no complete pair of credentials is available or when the carrier
    address code is empty; otherwise exactly one, to the URL ending in the
    first credential, carrying the address code as typed and the second
    credential.  The form's credentials are used when both are filled in,
    else the environment's. *)
Theorem submit_sends_at_most_one_request {rt : Runtime}
    (WIR_API WIR_UNIQ : pystr) (f : Form) (t : trace) :
  posts (snd (on_submit WIR_API WIR_UNIQ f t))
  = posts t ++ (if blank (il_input f) || blank (ilce_input f)
                then []
                else submit_request WIR_API WIR_UNIQ f)
  /\ List.length (submit_request WIR_API WIR_UNIQ f) <= 1.
Proof.
  split; [|apply submit_request_length].
  destruct (blank (il_input f) || blank (ilce_input f)) eqn:B.
  - destruct (on_submit_invalid WIR_API WIR_UNIQ f t B) as (msg & H).
    rewrite H. cbn [snd]. rewrite posts_app. reflexivity.
  - rewrite (on_submit_valid _ _ _ _ B). cbn [snd].
    destruct (submit_loop WIR_API WIR_UNIQ f (t ++ [Subheader (py "Sonuçlar")]))
      as (mid & Hres & _ & _ & Hposts).
    rewrite posts_app, Hposts, posts_app.
    assert (P : forall rs, posts (flat_map render_events rs) = []).
    { induction rs as [|r rest IH]; [reflexivity|].
      change (flat_map render_events (r :: rest))
        with (render_events r ++ flat_map render_events rest).
      rewrite posts_app, IH, app_nil_r.
      unfold render_events.
      destruct (startswith (provider r) (py "Resmî") && truthy (JObj (raw r)));
        [|reflexivity].
      change (posts (map (fun kv => LinkButton (fst kv) (snd kv)) (raw r)) = []).
      induction (raw r) as [|kv m IHm]; [reflexivity|exact IHm]. }
    rewrite P. simpl. now rewrite !app_nil_r.
Qed.

(** X3.  The handler itself never raises, and it shows the form-error box
    exactly when the province or the district is blank: with a valid
    address nothing the upstream answers (no response, an error status, a
    body that cannot be used) ends up in an error box. *)
Theorem submit_error_box_only_for_blank_fields {rt : Runtime}
    (WIR_API WIR_UNIQ : pystr) (f : Form) (t : trace) :
  fst (on_submit WIR_API WIR_UNIQ f t) = inr tt
  /\ if blank (il_input f) || blank (ilce_input f)
     then exists msg,
            error_boxes (snd (on_submit WIR_API WIR_UNIQ f t)) = error_boxes t ++ [msg]
     else error_boxes (snd (on_submit WIR_API WIR_UNIQ f t)) = error_boxes t.
Proof.
  destruct (blank (il_input f) || blank (ilce_input f)) eqn:B.
  - destruct (on_submit_invalid WIR_API WIR_UNIQ f t B) as (msg & H).
    rewrite H. split; [reflexivity|].
    exists msg. cbn [snd]. now rewrite error_boxes_app.
  - rewrite (on_submit_valid _ _ _ _ B). split; [reflexivity|]. cbn [snd].
    destruct (loop_trace_shape (active_providers WIR_API WIR_UNIQ f) (validated f)
                (t ++ [Subheader (py "Sonuçlar")])) as (ext & Hext & Fext).
    destruct (loop_events_show_nothing _ Fext) as (_ & _ & Eext).
    rewrite Hext, !error_boxes_app, Eext.
    destruct (rendered_read
                (List.concat
                   (provider_outputs (active_providers WIR_API WIR_UNIQ f)
                      (validated f) (t ++ [Subheader (py "Sonuçlar")])))) as (_ & E).
    rewrite E. simpl. now rewrite !app_nil_r.
Qed.

(** X4.  The link buttons of a submit are those of the fixed table of official
    pages, in its order, and only they: nothing in a response of the
    upstream service is ever turned into a link. *)
Theorem submit_links_are_the_fixed_table {rt : Runtime}
    (WIR_API WIR_UNIQ : pystr) (f : Form) (t : trace) :
  link_buttons_shown (snd (on_submit WIR_API WIR_UNIQ f t))
  = link_buttons_shown t
      ++ (if blank (il_input f) || blank (ilce_input f) then [] else LINKS).
Proof.
  destruct (blank (il_input f) || blank (ilce_input f)) eqn:B.
  - destruct (on_submit_invalid WIR_API WIR_UNIQ f t B) as (msg & H).
    rewrite H. cbn [snd]. now rewrite link_buttons_shown_app.
  - rewrite (on_submit_valid _ _ _ _ B). cbn [snd].
    destruct (submit_loop WIR_API WIR_UNIQ f (t ++ [Subheader (py "Sonuçlar")]))
      as (mid & Hres & Hmid & _ & _).
    destruct (loop_trace_shape (active_providers WIR_API WIR_UNIQ f) (validated f)
                (t ++ [Subheader (py "Sonuçlar")])) as (ext & Hext & Fext).
    destruct (loop_events_show_nothing _ Fext) as (_ & Lext & _).
    rewrite Hres, Hext, !link_buttons_shown_app, Lext.
    change (flat_map render_events
              (mock_result (lower (strip (il_input f))) :: mid ++ [redirect_result]))
      with (render_events (mock_result (lower (strip (il_input f))))
              ++ flat_map render_events (mid ++ [redirect_result])).
    rewrite flat_map_app, !link_buttons_shown_app, (rendered_plain Hmid).
    rewrite render_events_plain by reflexivity.
    simpl. now rewrite !app_nil_r.
Qed.

(** ** Address, once more *)

Lemma strip_of_trimmed (s : pystr) : trimmed s -> strip s = s.
Proof.
  intros [L R]. unfold strip. now rewrite L.
Qed.

Lemma Address_new_inv (i c : pystr) (m s b d k : option pystr) (a : Address) :
  Address_new i c m s b d k = inr a ->
  blank i = false /\ blank c = false
  /\ a = {| il := strip i; ilce := strip c; mahalle := m; cadde_sokak := s;
            bina_no := b; daire := d; tt_adres_kodu := k |}.
Proof.
  intros H.
  destruct (blank i || blank c) eqn:B.
  - destruct (Address_new_blank i c m s b d k B) as (fields & _ & E). congruence.
  - apply orb_false_iff in B as [Bi Bc].
    rewrite (@Address_new_ok _ _ m s b d k Bi Bc) in H. inversion H. auto.
Qed.

Lemma strip_stays_nonblank (s : pystr) : blank s = false -> blank (strip s) = false.
Proof.
  intros B. destruct (blank (strip s)) eqn:E; [|reflexivity].
  apply strip_blank in E. rewrite (strip_of_trimmed (strip_trimmed s)) in E.
  apply strip_blank in E. congruence.
Qed.

(** X5.  Validation is idempotent: an address that was accepted is accepted
    again from its own fields, unchanged. *)
Theorem Address_revalidates_to_itself (i c : pystr) (m s b d k : option pystr)
    (a : Address) :
  Address_new i c m s b d k = inr a ->
  Address_new (il a) (ilce a) (mahalle a) (cadde_sokak a) (bina_no a) (daire a)
    (tt_adres_kodu a) = inr a.
Proof.
  intros H. apply Address_new_inv in H as (Bi & Bc & ->). simpl.
  rewrite (@Address_new_ok _ _ m s b d k (strip_stays_nonblank _ Bi)
             (strip_stays_nonblank _ Bc)).
  now rewrite !(strip_of_trimmed (strip_trimmed _)).
Qed.

Lemma Address_revalidates_to_itself_witness :
  Address_new (py "Rize") (py "Merkez") None None None None (Some (py "42"))
  = inr {| il := py "Rize"; ilce := py "Merkez"; mahalle := None;
           cadde_sokak := None; bina_no := None; daire := None;
           tt_adres_kodu := Some (py "42") |}.
Proof.
  apply (@Address_revalidates_to_itself (py "  Rize ") (py "Merkez  ")
           None None None None (Some (py "42"))
           {| il := py "Rize"; ilce := py "Merkez"; mahalle := None;
              cadde_sokak := None; bina_no := None; daire := None;
              tt_adres_kodu := Some (py "42") |}).
  reflexivity.
Defined.

(** ** The Wiradius provider, once more *)

(** X6.  With both credentials and the address code non-empty the provider
    returns exactly one result under its own name and sends exactly one
    request, whatever comes back: it never raises, never answers with
    nothing and never sends a second request. *)
Theorem Wiradius_one_request_one_result {rt : Runtime}
    (api uniq code : pystr) (a : Address) (t : trace) :
  api <> [] -> uniq <> [] -> tt_adres_kodu a = Some code -> code <> [] ->
  exists r,
    query (WiradiusTTProvider api uniq) a t
    = (inr [r], t ++ [Posted (wiradius_request api uniq code)])
    /\ provider r = py "Wiradius – TT VAE (Opsiyonel)".
Proof.
  intros Ha Hu Hk Hc. eexists. split.
  - apply (wiradius_query_eq a t Ha Hu Hk Hc).
  - apply wiradius_outcome_provider.
Qed.

Lemma Wiradius_one_request_one_result_witness :
  exists r,
    @query (sample_runtime (ok_json (JArr []))) (WiradiusTTProvider (py "api") (py "uniq"))
       (sample_address (py "Rize") (Some (py "1234567890"))) []
    = (inr [r], [] ++ [Posted (wiradius_request (py "api") (py "uniq") (py "1234567890"))])
    /\ provider r = py "Wiradius – TT VAE (Opsiyonel)".
Proof.
  apply (@Wiradius_one_request_one_result (sample_runtime (ok_json (JArr [])))
           (py "api") (py "uniq") (py "1234567890")
           (sample_address (py "Rize") (Some (py "1234567890"))) []).
  - literal_nonempty.
  - literal_nonempty.
  - reflexivity.
  - literal_nonempty.
Defined.

(** X7.  A body that is valid JSON but not an object (a list, a string, a
    number, a boolean, null) is reported as an error result carrying the
    [AttributeError] of the missing [get] method. *)
Theorem Wiradius_non_object_body_is_error {rt : Runtime}
    (api uniq code : pystr) (a : Address) (t : trace) (resp : response) (v : json) :
  api <> [] -> uniq <> [] -> tt_adres_kodu a = Some code -> code <> [] ->
  upstream t (wiradius_request api uniq code) = Responded resp ->
  (status_code resp < 400 \/ 600 <= status_code resp)%Z ->
  body resp = Parsed v ->
  is_object v = false ->
  query (WiradiusTTProvider api uniq) a t
  = (inr [error_result (py "Wiradius – TT VAE (Opsiyonel)")
            (str_exn (AttributeError (type_name v) (py "get")))],
     t ++ [Posted (wiradius_request api uniq code)]).
Proof.
  intros Ha Hu Hk Hc Hr Hs Hb Hv.
  rewrite (wiradius_query_eq a t Ha Hu Hk Hc), Hr.
  unfold wiradius_outcome. rewrite Hb.
  assert (S : ((400 <=? status_code resp) && (status_code resp <? 600))%Z = false).
  { apply andb_false_iff. destruct Hs; [left; apply Z.leb_gt|right; apply Z.ltb_ge]; lia. }
  rewrite S. destruct v; try reflexivity. discriminate.
Qed.

Lemma Wiradius_non_object_body_is_error_witness :
  @query (sample_runtime (ok_json (JArr [JStr (py "Fiber")])))
     (WiradiusTTProvider (py "api") (py "uniq"))
     (sample_address (py "Rize") (Some (py "1234567890"))) []
  = (inr [error_result (py "Wiradius – TT VAE (Opsiyonel)")
            (py "'list' object has no attribute 'get'")],
     [Posted (wiradius_request (py "api") (py "uniq") (py "1234567890"))]).
Proof.
  apply (@Wiradius_non_object_body_is_error
           (sample_runtime (ok_json (JArr [JStr (py "Fiber")])))
           (py "api") (py "uniq") (py "1234567890")
           (sample_address (py "Rize") (Some (py "1234567890"))) []
           {| status_code := 200; body := Parsed (JArr [JStr (py "Fiber")]) |}
           (JArr [JStr (py "Fiber")])).
  - literal_nonempty.
  - literal_nonempty.
  - reflexivity.
  - literal_nonempty.
  - reflexivity.
  - left. simpl. lia.
  - reflexivity.
  - reflexivity.
Defined.

Lemma InfraResult_new_refused {rt : Runtime} (n tech : pystr) (vd vu vp raw_in : json) :
  (exists e, float_field vd = inl e) \/ (exists e, float_field vu = inl e)
  \/ (exists e, bool_field vp = inl e) ->
  exists e, InfraResult_new n tech vd vu vp raw_in = inl e.
Proof.
  intros H. unfold InfraResult_new.
  destruct (float_field vd) as [ed|d] eqn:D.
  - destruct (is_overflow (inl ed)); [eauto|].
    destruct (is_overflow (float_field vu)); [eauto|].
    destruct (float_field vu), (bool_field vp), (dict_field raw_in); eauto.
  - simpl. destruct (float_field vu) as [eu|u] eqn:U.
    + destruct (is_overflow (inl eu)); [eauto|].
      destruct (bool_field vp), (dict_field raw_in); eauto.
    + simpl. destruct (bool_field vp) as [ep|p] eqn:P.
      * destruct (dict_field raw_in); eauto.
      * destruct H as [[e E]|[[e E]|[e E]]]; discriminate.
Qed.

(** X8.  When pydantic refuses the download speed, the upload speed or the port
    availability found in the body (a list where a number is expected, an
    integer too large for a float), the provider answers with the error
    result: the refusal is caught like a transport failure and the body is
    not kept. *)
Theorem Wiradius_refused_value_is_error {rt : Runtime}
    (api uniq code : pystr) (a : Address) (t : trace) (resp : response) (m : dict) :
  api <> [] -> uniq <> [] -> tt_adres_kodu a = Some code -> code <> [] ->
  upstream t (wiradius_request api uniq code) = Responded resp ->
  (status_code resp < 400 \/ 600 <= status_code resp)%Z ->
  body resp = Parsed (JObj m) ->
  (exists e, float_field (first_truthy m (py "max_down") (py "download")) = inl e)
  \/ (exists e, float_field (first_truthy m (py "max_up") (py "upload")) = inl e)
  \/ (exists e, bool_field (field m (py "port_available")) = inl e) ->
  exists e,
    query (WiradiusTTProvider api uniq) a t
    = (inr [error_result (py "Wiradius – TT VAE (Opsiyonel)") (str_exn e)],
       t ++ [Posted (wiradius_request api uniq code)]).
Proof.
  intros Ha Hu Hk Hc Hr Hs Hb Hv.
  rewrite (wiradius_query_eq a t Ha Hu Hk Hc), Hr.
  unfold wiradius_outcome. rewrite Hb.
  assert (S : ((400 <=? status_code resp) && (status_code resp <? 600))%Z = false).
  { apply andb_false_iff. destruct Hs; [left; apply Z.leb_gt|right; apply Z.ltb_ge]; lia. }
  rewrite S.
  destruct (InfraResult_new_refused
              (name (WiradiusTTProvider api uniq)) (py_str (technology_of m))
              _ _ _ (JObj m) Hv) as (e & E).
  exists e. now rewrite E.
Qed.

Lemma Wiradius_refused_value_is_error_witness :
  exists e,
    @query (sample_runtime (ok_json (JObj [(py "max_down", JInt (10 ^ 400))])))
       (WiradiusTTProvider (py "api") (py "uniq"))
       (sample_address (py "Rize") (Some (py "1234567890"))) []
    = (inr [error_result (py "Wiradius – TT VAE (Opsiyonel)") (sample_str_exn e)],
       [] ++ [Posted (wiradius_request (py "api") (py "uniq") (py "1234567890"))]).
Proof.
  apply (@Wiradius_refused_value_is_error
           (sample_runtime (ok_json (JObj [(py "max_down", JInt (10 ^ 400))])))
           (py "api") (py "uniq") (py "1234567890")
           (sample_address (py "Rize") (Some (py "1234567890"))) []
           {| status_code := 200;
              body := Parsed (JObj [(py "max_down", JInt (10 ^ 400))]) |}
           [(py "max_down", JInt (10 ^ 400))]).
  - literal_nonempty.
  - literal_nonempty.
  - reflexivity.
  - literal_nonempty.
  - reflexivity.
  - left. simpl. lia.
  - reflexivity.
  - left. exists OverflowError. vm_compute. reflexivity.
Defined.

(** X9.  Keys that are missing, or whose value is null, zero, false or empty,
    count as absent: when neither technology key has a truthy value the
    technology is Unknown, and a speed whose first key has no truthy value
    and whose second key is missing or null is unset (so a lone zero speed
    is shown as unset).  The result is a normal one and keeps the body. *)
Theorem Wiradius_absent_fields_default {rt : Runtime}
    (api uniq code : pystr) (a : Address) (t : trace) (resp : response) (m : dict) :
  api <> [] -> uniq <> [] -> tt_adres_kodu a = Some code -> code <> [] ->
  upstream t (wiradius_request api uniq code) = Responded resp ->
  (status_code resp < 400 \/ 600 <= status_code resp)%Z ->
  body resp = Parsed (JObj m) ->
  truthy (field m (py "technology")) = false ->
  truthy (field m (py "tech")) = false ->
  truthy (field m (py "max_down")) = false -> field m (py "download") = JNull ->
  truthy (field m (py "max_up")) = false -> field m (py "upload") = JNull ->
  field m (py "port_available") = JNull ->
  query (WiradiusTTProvider api uniq) a t
  = (inr [{| provider := py "Wiradius – TT VAE (Opsiyonel)";
             technology := Unknown;
             max_down_mbps := None;
             max_up_mbps := None;
             port_available := None;
             raw := m |}],
     t ++ [Posted (wiradius_request api uniq code)]).
Proof.
  intros Ha Hu Hk Hc Hr Hs Hb T1 T2 D1 D2 U1 U2 P.
  rewrite (wiradius_query_eq a t Ha Hu Hk Hc), Hr.
  unfold wiradius_outcome. rewrite Hb.
  assert (S : ((400 <=? status_code resp) && (status_code resp <? 600))%Z = false).
  { apply andb_false_iff. destruct Hs; [left; apply Z.leb_gt|right; apply Z.ltb_ge]; lia. }
  rewrite S.
  unfold technology_of, first_truthy. rewrite T1, T2, D1, D2, U1, U2, P.
  reflexivity.
Qed.

Lemma Wiradius_absent_fields_default_witness :
  @query (sample_runtime (ok_json (JObj [(py "technology", JStr (py ""));
                                         (py "max_down", JInt 0);
                                         (py "max_up", JBool false)])))
     (WiradiusTTProvider (py "api") (py "uniq"))
     (sample_address (py "Rize") (Some (py "1234567890"))) []
  = (inr [{| provider := py "Wiradius – TT VAE (Opsiyonel)";
             technology := Unknown;
             max_down_mbps := None;
             max_up_mbps := None;
             port_available := None;
             raw := [(py "technology", JStr (py "")); (py "max_down", JInt 0);
                     (py "max_up", JBool false)] |}],
     [Posted (wiradius_request (py "api") (py "uniq") (py "1234567890"))]).
Proof.
  apply (@Wiradius_absent_fields_default
           (sample_runtime (ok_json (JObj [(py "technology", JStr (py ""));
                                           (py "max_down", JInt 0);
                                           (py "max_up", JBool false)])))
           (py "api") (py "uniq") (py "1234567890")
           (sample_address (py "Rize") (Some (py "1234567890"))) []
           {| status_code := 200;
              body := Parsed (JObj [(py "technology", JStr (py ""));
                                    (py "max_down", JInt 0);
                                    (py "max_up", JBool false)]) |}
           [(py "technology", JStr (py "")); (py "max_down", JInt 0);
            (py "max_up", JBool false)]);
    try reflexivity; try literal_nonempty.
  left. simpl. lia.
Defined.

Lemma truthy_opt_code (a : Address) :
  truthy_opt (tt_adres_kodu a) = PyStr.truthy (tt_code_of a).
Proof.
  unfold tt_code_of. destruct (tt_adres_kodu a); reflexivity.
Qed.

(** X10.  Of the address, the Wiradius provider uses the carrier address code
    and nothing else, and it does not tell a missing code from an empty one:
    province, district and the other fields are neither looked at nor
    sent. *)
Theorem Wiradius_depends_on_address_code_only {rt : Runtime}
    (api uniq : pystr) (a1 a2 : Address) (t : trace) :
  tt_code_of a1 = tt_code_of a2 ->
  query (WiradiusTTProvider api uniq) a1 t = query (WiradiusTTProvider api uniq) a2 t.
Proof.
  intros H. unfold query, WiradiusTTProvider_query.
  now rewrite !truthy_opt_code, H.
Qed.

Lemma Wiradius_depends_on_address_code_only_witness :
  @query (sample_runtime (ok_json (JObj sample_body)))
     (WiradiusTTProvider (py "api") (py "uniq"))
     {| il := py "Ordu"; ilce := py "Fatsa"; mahalle := None;
        cadde_sokak := Some (py "Sahil"); bina_no := Some (py "7");
        daire := None; tt_adres_kodu := Some (py "1234567890") |} []
  = @query (sample_runtime (ok_json (JObj sample_body)))
      (WiradiusTTProvider (py "api") (py "uniq"))
      (sample_address (py "Rize") (Some (py "1234567890"))) [].
Proof.
  apply (@Wiradius_depends_on_address_code_only
           (sample_runtime (ok_json (JObj sample_body)))).
  reflexivity.
Defined.

(** ** The module-level list *)

Lemma resolved_without_override (WIR_API WIR_UNIQ : pystr) (f : Form) :
  wir_api_input f = [] \/ wir_uniq_input f = [] ->
  resolved_credentials WIR_API WIR_UNIQ f
  = if PyStr.truthy WIR_API && PyStr.truthy WIR_UNIQ
    then Some (WIR_API, WIR_UNIQ) else None.
Proof.
  intros H. unfold resolved_credentials.
  assert (E : PyStr.truthy (wir_api_input f) && PyStr.truthy (wir_uniq_input f) = false).
  { destruct H as [-> | ->]; simpl; [reflexivity|apply andb_false_r]. }
  now rewrite E.
Qed.

(** X11.  When no complete pair of credentials is typed into the form, querying
    the module-level list [PROVIDERS] and querying the list the handler
    builds give the same results and send the same requests: a Wiradius
    provider left without credentials answers nothing and sends nothing, so
    leaving it out changes only the spinners. *)
Theorem PROVIDERS_agree_with_active_providers {rt : Runtime}
    (WIR_API WIR_UNIQ : pystr) (f : Form) (a : Address) (t : trace) :
  wir_api_input f = [] \/ wir_uniq_input f = [] ->
  fst (query_loop (PROVIDERS WIR_API WIR_UNIQ) a [] t)
  = fst (query_loop (active_providers WIR_API WIR_UNIQ f) a [] t)
  /\ posts (snd (query_loop (PROVIDERS WIR_API WIR_UNIQ) a [] t))
     = posts (snd (query_loop (active_providers WIR_API WIR_UNIQ f) a [] t)).
Proof.
  intros H.
  rewrite active_providers_resolved, (resolved_without_override _ _ _ H).
  change (PROVIDERS WIR_API WIR_UNIQ)
    with [MockProvider; WiradiusTTProvider WIR_API WIR_UNIQ; LinkOutProvider].
  destruct (PyStr.truthy WIR_API && PyStr.truthy WIR_UNIQ) eqn:E; [auto|].
  rewrite !query_loop_eq. cbn [fst snd].
  pose proof (mock_query_eq a (announced MockProvider t)) as QM.
  destruct (@provider_outputs_cons _ _
              [WiradiusTTProvider WIR_API WIR_UNIQ; LinkOutProvider] _ _ _ _ QM)
    as [O1 T1].
  destruct (@provider_outputs_cons _ _ [LinkOutProvider] _ _ _ _ QM) as [O2 T2].
  rewrite O1, T1, O2, T2. clear O1 T1 O2 T2.
  set (t1 := announced MockProvider t).
  assert (G : PyStr.truthy WIR_API && PyStr.truthy WIR_UNIQ
              && truthy_opt (tt_adres_kodu a) = false) by now rewrite E.
  pose proof (wiradius_guard_closed WIR_API WIR_UNIQ a
                (announced (WiradiusTTProvider WIR_API WIR_UNIQ) t1) G) as QW.
  destruct (@provider_outputs_cons _ _ [LinkOutProvider] _ _ _ _ QW) as [OW TW].
  rewrite OW, TW. clear OW TW.
  pose proof (linkout_query_eq a (announced LinkOutProvider
                (announced (WiradiusTTProvider WIR_API WIR_UNIQ) t1))) as QL1.
  pose proof (linkout_query_eq a (announced LinkOutProvider t1)) as QL2.
  destruct (@provider_outputs_cons _ _ [] _ _ _ _ QL1) as [OL1 TL1].
  destruct (@provider_outputs_cons _ _ [] _ _ _ _ QL2) as [OL2 TL2].
  rewrite OL1, TL1, OL2, TL2. simpl.
  split; [reflexivity|]. now rewrite !posts_announced.
Qed.

Lemma PROVIDERS_agree_with_active_providers_witness :
  fst (@query_loop (sample_runtime (ok_json (JObj sample_body)))
         (PROVIDERS (py "api") (py "")) (sample_address (py "Rize") (Some (py "42"))) [] [])
  = fst (@query_loop (sample_runtime (ok_json (JObj sample_body)))
           (active_providers (py "api") (py "")
              (sample_form (py "Rize") (py "42") (py "typed") (py "")))
           (sample_address (py "Rize") (Some (py "42"))) [] [])
  /\ posts (snd (@query_loop (sample_runtime (ok_json (JObj sample_body)))
                   (PROVIDERS (py "api") (py ""))
                   (sample_address (py "Rize") (Some (py "42"))) [] []))
     = posts (snd (@query_loop (sample_runtime (ok_json (JObj sample_body)))
                     (active_providers (py "api") (py "")
                        (sample_form (py "Rize") (py "42") (py "typed") (py "")))
                     (sample_address (py "Rize") (Some (py "42"))) [] [])).
Proof.
  apply (@PROVIDERS_agree_with_active_providers
           (sample_runtime (ok_json (JObj sample_body))) (py "api") (py "")
           (sample_form (py "Rize") (py "42") (py "typed") (py ""))
           (sample_address (py "Rize") (Some (py "42"))) []).
  right. reflexivity.
Defined.

(** ** The loop, once more *)

Lemma posts_map_posted (reqs : list request) : posts (map Posted reqs) = reqs.
Proof.
  induction reqs as [|r rest IH]; [reflexivity|].
  unfold posts in *. simpl. now rewrite IH.
Qed.

Lemma loop_bounds {rt : Runtime} (ps : list Provider) (a : Address) (t : trace) :
  exists reqs,
    posts (trace_after ps a t) = posts t ++ reqs
    /\ List.length reqs <= List.length (List.concat (provider_outputs ps a t))
    /\ List.length (List.concat (provider_outputs ps a t)) <= List.length ps
    /\ Forall (fun r => In (provider r) (map name ps))
         (List.concat (provider_outputs ps a t)).
Proof.
  revert t. induction ps as [|p rest IH]; intros t.
  - exists []. simpl. rewrite app_nil_r. repeat split; auto.
  - destruct (query_shape p a (announced p t)) as (rs & reqs & Q & Hn & Hl & Hr).
    destruct (@provider_outputs_cons _ _ rest _ _ _ _ Q) as [O T].
    rewrite O, T. clear O T.
    destruct (IH (announced p t ++ map Posted reqs)) as (reqs' & P' & L1 & L2 & N').
    exists (reqs ++ reqs'). simpl List.concat. simpl map. simpl List.length.
    rewrite !length_app. repeat split; try lia.
    + rewrite P', posts_app, posts_announced, posts_map_posted.
      now rewrite app_assoc.
    + apply Forall_app. split.
      * eapply Forall_impl; [|exact Hn]. intros r Hp. left. now symmetry.
      * eapply Forall_impl; [|exact N']. intros r Hi. now right.
Qed.

(** X12.  For every list of providers the aggregate holds at most one result per
    provider, each labelled with the name of one of the providers in the
    list, and the loop sends at most one request per result. *)
Theorem aggregate_is_bounded_and_attributed {rt : Runtime}
    (ps : list Provider) (a : Address) (t : trace) :
  exists rs t' reqs,
    query_loop ps a [] t = (inr rs, t')
    /\ List.length rs <= List.length ps
    /\ Forall (fun r => In (provider r) (map name ps)) rs
    /\ posts t' = posts t ++ reqs
    /\ List.length reqs <= List.length rs.
Proof.
  destruct (loop_bounds ps a t) as (reqs & P & L1 & L2 & N).
  exists (List.concat (provider_outputs ps a t)), (trace_after ps a t), reqs.
  repeat split; auto. apply (query_loop_eq ps a [] t).
Qed.

(** X13.  A non-empty string under "technology" is passed on as it is, whether
    or not it is one of the known technology names, and "tech" is then not
    consulted. *)
Theorem Wiradius_technology_string_is_kept {rt : Runtime}
    (api uniq code tech : pystr) (a : Address) (t : trace) (resp : response) (m : dict)
    (d u : option float) (p : option bool) :
  api <> [] -> uniq <> [] -> tt_adres_kodu a = Some code -> code <> [] ->
  upstream t (wiradius_request api uniq code) = Responded resp ->
  (status_code resp < 400 \/ 600 <= status_code resp)%Z ->
  body resp = Parsed (JObj m) ->
  field m (py "technology") = JStr tech -> tech <> [] ->
  float_field (first_truthy m (py "max_down") (py "download")) = inr d ->
  float_field (first_truthy m (py "max_up") (py "upload")) = inr u ->
  bool_field (field m (py "port_available")) = inr p ->
  query (WiradiusTTProvider api uniq) a t
  = (inr [{| provider := py "Wiradius – TT VAE (Opsiyonel)";
             technology := tech;
             max_down_mbps := d;
             max_up_mbps := u;
             port_available := p;
             raw := m |}],
     t ++ [Posted (wiradius_request api uniq code)]).
Proof.
  intros Ha Hu Hk Hc Hr Hs Hb Ht Hne Hd Hup Hp.
  rewrite (wiradius_query_eq a t Ha Hu Hk Hc), Hr.
  unfold wiradius_outcome. rewrite Hb.
  assert (S : ((400 <=? status_code resp) && (status_code resp <? 600))%Z = false).
  { apply andb_false_iff. destruct Hs; [left; apply Z.leb_gt|right; apply Z.ltb_ge]; lia. }
  rewrite S.
  rewrite (@InfraResult_new_ok _ _ _ _ _ _ m _ _ _ Hd Hup Hp).
  assert (T : py_str (technology_of m) = tech).
  { unfold technology_of, first_truthy. rewrite Ht.
    apply truthy_str_iff in Hne. simpl. rewrite Hne. simpl. now rewrite Hne. }
  now rewrite T.
Qed.

Lemma Wiradius_technology_string_is_kept_witness :
  @query (sample_runtime (ok_json (JObj [(py "technology", JStr (py "Koaksiyel"));
                                         (py "tech", JStr (py "Fiber"))])))
     (WiradiusTTProvider (py "api") (py "uniq"))
     (sample_address (py "Rize") (Some (py "1234567890"))) []
  = (inr [{| provider := py "Wiradius – TT VAE (Opsiyonel)";
             technology := py "Koaksiyel";
             max_down_mbps := None;
             max_up_mbps := None;
             port_available := None;
             raw := [(py "technology", JStr (py "Koaksiyel"));
                     (py "tech", JStr (py "Fiber"))] |}],
     [Posted (wiradius_request (py "api") (py "uniq") (py "1234567890"))]).
Proof.
  apply (@Wiradius_technology_string_is_kept
           (sample_runtime (ok_json (JObj [(py "technology", JStr (py "Koaksiyel"));
                                           (py "tech", JStr (py "Fiber"))])))
           (py "api") (py "uniq") (py "1234567890") (py "Koaksiyel")
           (sample_address (py "Rize") (Some (py "1234567890"))) []
           {| status_code := 200;
              body := Parsed (JObj [(py "technology", JStr (py "Koaksiyel"));
                                    (py "tech", JStr (py "Fiber"))]) |}
           [(py "technology", JStr (py "Koaksiyel")); (py "tech", JStr (py "Fiber"))]
           None None None);
    try reflexivity; try literal_nonempty.
  left. simpl. lia.
Defined.
